(** * The JSON-RPC playground server

    A shallow embedding of [src/jsonrpc_playground/server.py]: the eight
    RPC methods of [JSONRPCServer], the registration of these methods in the
    process-wide dispatcher, and the HTTP adapter [RequestHandler.do_POST].

    Conventions of the embedding.
    - A Python object that [json.loads] can produce is a [value].  JSON
      numbers with a fraction or an exponent (Python floats) are left out of
      the model; integers are unbounded, as in Python, and CPython's limit
      of [max_str_digits] digits on the conversion between [int] and [str]
      is part of the model.
    - A [str] is a [string], one [ascii] per character: the model holds the
      strings of code points below 256, all of which UTF-8 can encode.  A
      [str] with a lone surrogate, which [f.write] refuses, is outside the
      model.
    - A Python call either returns or raises: [outcome].  The exception
      classes are those the modelled expressions raise; all of them derive
      from [Exception].
    - [json.dumps] belongs to the standard library.  [RequestHandler.do_POST]
      gives the reply of the adapter when [json.dumps] returns;
      [Wire.do_POST] follows the adapter call by call for a [json.dumps]
      that may raise, and says what is on the connection then.
    - The log file lives in a file system [gmap string string] from paths to
      the text of the files, as UTF-8 decodes it; a path that is not in the
      map does not exist.  A file whose bytes are not UTF-8, and a file
      that cannot be opened for another reason than that it is missing, are
      outside the model. *)

From Stdlib Require Import ZArith List String Ascii Lia Bool.
From stdpp Require Import base gmap strings pretty list.

Set Warnings "-register-all".
Local Open Scope Z_scope.

(** ** Python values and exceptions *)

Inductive value : Type :=
| VNone
| VBool (b : bool)
| VInt (n : Z)
| VStr (s : string)
| VList (items : list value)
| VDict (entries : list (string * value)).

Inductive exc_class : Type :=
| Exception
| TypeError
| ValueError
| KeyError
| UnicodeDecodeError
| RuntimeError
| FileNotFoundError.

Record exception : Type := Exc { exc_type : exc_class; exc_msg : string }.

Inductive outcome (A : Type) : Type :=
| Return (a : A)
| Raise (e : exception).
Arguments Return {A} a.
Arguments Raise {A} e.

Definition exc_class_eqb (c d : exc_class) : bool :=
  match c, d with
  | Exception, Exception
  | TypeError, TypeError | ValueError, ValueError | KeyError, KeyError
  | UnicodeDecodeError, UnicodeDecodeError | RuntimeError, RuntimeError
  | FileNotFoundError, FileNotFoundError => true
  | _, _ => false
  end.

(** [issubclass c d] for the classes above: every class derives from
    itself and from [Exception], and [UnicodeDecodeError] from
    [ValueError]. *)
Definition issubclass (c d : exc_class) : bool :=
  match c, d with
  | _, Exception => true
  | UnicodeDecodeError, ValueError => true
  | _, _ => exc_class_eqb c d
  end.

(** [except (c1, c2, ...)]: does the clause catch [e]? *)
Definition caught_by (e : exception) (classes : list exc_class) : bool :=
  existsb (issubclass (exc_type e)) classes.

Definition LF : ascii := "010"%char.
Definition CR : ascii := "013"%char.
Definition TAB : ascii := "009"%char.
Definition DQUOTE : ascii := "034"%char.
Definition SQUOTE : ascii := "039"%char.
Definition BACKSLASH : ascii := "092"%char.

Definition newline : string := String LF EmptyString.
Definition dquote : string := String DQUOTE EmptyString.

(** [type(v).__name__] *)
Definition type_name (v : value) : string :=
  match v with
  | VNone => "NoneType"
  | VBool _ => "bool"
  | VInt _ => "int"
  | VStr _ => "str"
  | VList _ => "list"
  | VDict _ => "dict"
  end.

(** [isinstance(v, int)]: [bool] is a subclass of [int]. *)
Definition isinstance_int (v : value) : bool :=
  match v with
  | VInt _ | VBool _ => true
  | _ => false
  end.

(** The integer an [int] instance stands for in arithmetic. *)
Definition int_value (v : value) : option Z :=
  match v with
  | VInt n => Some n
  | VBool true => Some 1
  | VBool false => Some 0
  | _ => None
  end.

(** [a + b] *)
Definition py_add (a b : value) : outcome value :=
  match a, b with
  | VStr s, VStr t => Return (VStr (s +:+ t))
  | VStr _, _ =>
      Raise (Exc TypeError ("can only concatenate str (not " +:+ dquote +:+
                            type_name b +:+ dquote +:+ ") to str"))
  | VList l, VList r => Return (VList (l ++ r))
  | VList _, _ =>
      Raise (Exc TypeError ("can only concatenate list (not " +:+ dquote +:+
                            type_name b +:+ dquote +:+ ") to list"))
  | _, _ =>
      match int_value a, int_value b with
      | Some x, Some y => Return (VInt (x + y))
      | _, _ =>
          Raise (Exc TypeError ("unsupported operand type(s) for +: '" +:+
                                type_name a +:+ "' and '" +:+ type_name b +:+ "'"))
      end
  end.

(** [v == s] for a string literal [s]. *)
Definition py_eq_str (v : value) (s : string) : bool :=
  match v with
  | VStr t => String.eqb t s
  | _ => false
  end.

(** ** [str()] and [repr()], as used by f-strings *)

Definition hex_digit (n : N) : ascii :=
  ascii_of_N (if (n <? 10)%N then 48 + n else 87 + n)%N.

Definition hex_escape (n : N) : string :=
  String BACKSLASH (String "x" (String (hex_digit (n / 16)) (String (hex_digit (n mod 16)) EmptyString))).

Fixpoint occurs (c : ascii) (s : string) : bool :=
  match s with
  | EmptyString => false
  | String d rest => Ascii.eqb c d || occurs c rest
  end.

(** The quote [repr] puts around a string: double quotes only when the
    string has a single quote and no double quote. *)
Definition repr_quote (s : string) : ascii :=
  if occurs SQUOTE s && negb (occurs DQUOTE s) then DQUOTE else SQUOTE.

Definition repr_char (quote c : ascii) : string :=
  let n := N_of_ascii c in
  if Ascii.eqb c quote || Ascii.eqb c BACKSLASH then String BACKSLASH (String c EmptyString)
  else if Ascii.eqb c TAB then String BACKSLASH "t"
  else if Ascii.eqb c LF then String BACKSLASH "n"
  else if Ascii.eqb c CR then String BACKSLASH "r"
  else if (n <? 32)%N || (n =? 127)%N then hex_escape n
  else if (n <? 127)%N then String c EmptyString
  else if ((n <=? 160)%N || (n =? 173)%N) then hex_escape n
  else String c EmptyString.

Fixpoint repr_chars (quote : ascii) (s : string) : string :=
  match s with
  | EmptyString => EmptyString
  | String c rest => repr_char quote c +:+ repr_chars quote rest
  end.

Definition str_repr (s : string) : string :=
  let q := repr_quote s in
  String q (repr_chars q s +:+ String q EmptyString).

Fixpoint join (sep : string) (parts : list string) : string :=
  match parts with
  | [] => EmptyString
  | [p] => p
  | p :: rest => p +:+ sep +:+ join sep rest
  end.

Fixpoint py_repr (v : value) : string :=
  match v with
  | VNone => "None"
  | VBool true => "True"
  | VBool false => "False"
  | VInt n => pretty n
  | VStr s => str_repr s
  | VList items => "[" +:+ join ", " (map py_repr items) +:+ "]"
  | VDict entries =>
      "{" +:+ join ", " (map (fun kv => str_repr (fst kv) +:+ ": " +:+ py_repr (snd kv)) entries) +:+ "}"
  end.

(** The text of [str(v)] when the conversion succeeds. *)
Definition py_str (v : value) : string :=
  match v with
  | VStr s => s
  | _ => py_repr v
  end.

(** CPython converts no integer of more than [max_str_digits] digits to or
    from a [str] (the default of [sys.set_int_max_str_digits]): [str],
    [repr] and [json.dumps] raise [ValueError] on a magnitude of
    [10 ^ max_str_digits] or more. *)
Definition max_str_digits : Z := 4300.

Definition str_digits_bound : Z := Eval vm_compute in 10 ^ 4300.

Definition digit_limit_error : exception :=
  Exc ValueError
    ("Exceeds the limit (4300 digits) for integer string conversion; " +:+
     "use sys.set_int_max_str_digits() to increase the limit").

(** [v] holds an integer that cannot be converted to a [str]. *)
Fixpoint oversized (v : value) : bool :=
  match v with
  | VInt n => str_digits_bound <=? Z.abs n
  | VList items => existsb oversized items
  | VDict entries => existsb (fun kv => oversized (snd kv)) entries
  | _ => false
  end.

(** [str(v)], which is what [f"{v}"] evaluates. *)
Definition py_format (v : value) : outcome string :=
  if oversized v then Raise digit_limit_error else Return (py_str v).

(** ** Text files *)

(** Reading a file opened in text mode with the default [newline=None]:
    every ["\r\n"] and every remaining ["\r"] comes back as ["\n"]. *)
Fixpoint universal_newlines (s : string) : string :=
  match s with
  | EmptyString => EmptyString
  | String c rest =>
      if Ascii.eqb c CR then
        match rest with
        | String d rest' =>
            if Ascii.eqb d LF then String LF (universal_newlines rest')
            else String LF (universal_newlines rest)
        | EmptyString => String LF EmptyString
        end
      else String c (universal_newlines rest)
  end.

(** [open(path, "r", encoding="utf-8")] followed by [f.read()], for a file
    that holds UTF-8 text. *)
Definition read_text (path : string) (fs : gmap string string) : outcome string :=
  match fs !! path with
  | Some contents => Return (universal_newlines contents)
  | None =>
      Raise (Exc FileNotFoundError
               ("[Errno 2] No such file or directory: " +:+ str_repr path))
  end.

(** [open(path, "a")]: the file is created when it does not exist. *)
Definition open_append (path : string) (fs : gmap string string) : gmap string string :=
  match fs !! path with
  | Some _ => fs
  | None => <[path := EmptyString]> fs
  end.

(** [f.write(text)] on a file opened with ["a"]. *)
Definition write_append (path text : string) (fs : gmap string string) : gmap string string :=
  <[path := default EmptyString (fs !! path) +:+ text]> fs.

(** [open(path, "w")]: the file is created or truncated. *)
Definition open_truncate (path : string) (fs : gmap string string) : gmap string string :=
  <[path := EmptyString]> fs.

(** ** Dictionaries as ordered lists of entries *)

Fixpoint dict_get (k : string) (d : list (string * value)) : option value :=
  match d with
  | [] => None
  | (k', v) :: rest => if String.eqb k k' then Some v else dict_get k rest
  end.

Fixpoint dict_remove (k : string) (d : list (string * value)) : list (string * value) :=
  match d with
  | [] => []
  | (k', v) :: rest =>
      if String.eqb k k' then dict_remove k rest else (k', v) :: dict_remove k rest
  end.

Definition dict_has (k : string) (d : list (string * value)) : bool :=
  match dict_get k d with Some _ => true | None => false end.

(** ** Server objects, bound methods and the global state *)

(** A [JSONRPCServer] instance.  [oid] is the identity of the object; the
    three fields are set once by [__init__].  (The [server] attribute, which
    only [start] and [stop] touch, is not needed here.) *)
Record server : Type := Server {
  oid : nat;
  host : string;
  port : Z;
  log_file : string
}.

(** The functions defined in the class body. *)
Inductive method : Type :=
| M_add
| M_greet
| M_log_message
| M_get_log
| M_clear_log
| M_cause_internal_error
| M_strict_add
| M_demo_method.

(** [self.add], [self.greet], ...: a function together with its [self]. *)
Record bound_method : Type := Bound { im_self : server; im_func : method }.

(** What a request can observe and change: the file system, the registry of
    the module-level [dispatcher], and the supply of object identities. *)
Record world : Type := World {
  files : gmap string string;
  method_map : gmap string bound_method;
  next_oid : nat
}.

(** Modelled from the spec: the method registry of the [jsonrpc] package
    (the [dispatcher] object that server.py imports; the package is not part
    of the sources).  The spec gives it three operations: registration
    overwrites any binding of the name, lookup, and [clear], which removes
    all bindings. *)
Module dispatcher.

Definition clear (w : world) : world :=
  World (files w) ∅ (next_oid w).

Definition add_method (f : bound_method) (name : string) (w : world) : world :=
  World (files w) (<[name := f]> (method_map w)) (next_oid w).

Definition lookup (name : string) (w : world) : option bound_method :=
  method_map w !! name.

End dispatcher.

Module JSONRPCServer.

(** *** JSON-RPC methods *)

Definition add (self : server) (a b : value) : outcome value :=
  py_add a b.

Definition greet (self : server) (name : value) : outcome value :=
  match py_format name with
  | Return text => Return (VStr ("Hello, " +:+ text +:+ "!"))
  | Raise e => Raise e
  end.

(** The file is opened (and so created) before [message + "\n"] is
    evaluated; [f.write] is reached only with a [str], and every [str] of
    the model can be encoded as UTF-8. *)
Definition log_message (self : server) (message : value)
    (fs : gmap string string) : gmap string string * outcome value :=
  let fs1 := open_append (log_file self) fs in
  match py_add message (VStr newline) with
  | Return (VStr line) => (write_append (log_file self) line fs1, Return VNone)
  | Return v =>
      (fs1, Raise (Exc TypeError ("write() argument must be str, not " +:+ type_name v)))
  | Raise e => (fs1, Raise e)
  end.

Definition get_log (self : server)
    (fs : gmap string string) : gmap string string * outcome value :=
  match read_text (log_file self) fs with
  | Return contents => (fs, Return (VStr contents))
  | Raise e =>
      if issubclass (exc_type e) FileNotFoundError
      then (fs, Return (VStr "Log is empty."))
      else (fs, Raise e)
  end.

Definition clear_log (self : server)
    (fs : gmap string string) : gmap string string * outcome value :=
  let fs1 := open_truncate (log_file self) fs in
  (write_append (log_file self) EmptyString fs1, Return (VStr "Log cleared.")).

Definition cause_internal_error (self : server) (trigger : value) : outcome value :=
  if py_eq_str trigger "error"
  then Raise (Exc RuntimeError "This is a deliberate internal error for demonstration")
  else
    match py_format trigger with
    | Return text => Return (VStr ("No error triggered. Received: " +:+ text))
    | Raise e => Raise e
    end.

Definition strict_add (self : server) (a b : value) : outcome value :=
  if negb (isinstance_int a) || negb (isinstance_int b)
  then Raise (Exc TypeError "Both parameters must be integers")
  else py_add a b.

Definition demo_method (self : server) (param1 param2 : value) : outcome value :=
  match py_format param1 with
  | Return text1 =>
      match py_format param2 with
      | Return text2 => Return (VStr ("Received: " +:+ text1 +:+ " and " +:+ text2))
      | Raise e => Raise e
      end
  | Raise e => Raise e
  end.

(** *** Construction *)

Definition _setup_methods (self : server) (w : world) : world :=
  let w := dispatcher.clear w in
  let w := dispatcher.add_method (Bound self M_add) "add" w in
  let w := dispatcher.add_method (Bound self M_strict_add) "strict_add" w in
  let w := dispatcher.add_method (Bound self M_cause_internal_error) "cause_internal_error" w in
  let w := dispatcher.add_method (Bound self M_greet) "greet" w in
  let w := dispatcher.add_method (Bound self M_demo_method) "demo_method" w in
  let w := dispatcher.add_method (Bound self M_log_message) "log_message" w in
  let w := dispatcher.add_method (Bound self M_get_log) "get_log" w in
  let w := dispatcher.add_method (Bound self M_clear_log) "clear_log" w in
  w.

(** [JSONRPCServer(host, port, log_file)]: a fresh object, then
    [_setup_methods]. *)
Definition __init__ (host : string) (port : Z) (log_file : string)
    (w : world) : world * server :=
  let self := Server (next_oid w) host port log_file in
  (_setup_methods self (World (files w) (method_map w) (S (next_oid w))), self).

(** *** Calling a bound method *)

(** The parameters after [self], with their default values. *)
Definition signature (m : method) : list (string * option value) :=
  match m with
  | M_add | M_strict_add => [("a", None); ("b", None)]
  | M_greet => [("name", None)]
  | M_log_message => [("message", None)]
  | M_get_log | M_clear_log => []
  | M_cause_internal_error => [("trigger", Some (VStr "error"))]
  | M_demo_method => [("param1", None); ("param2", None)]
  end.

(** Argument binding of a call with positional arguments [args] and
    keyword arguments [kwargs]: positional arguments
    first, then keywords, then defaults.  [None] when Python rejects the
    call: too many positional arguments, a parameter given twice, a
    required parameter missing, an unexpected keyword. *)
Fixpoint bind (params : list (string * option value)) (args : list value)
    (kwargs : list (string * value)) : option (list value) :=
  match params with
  | [] =>
      match args, kwargs with
      | [], [] => Some []
      | _, _ => None
      end
  | (p, dflt) :: params' =>
      match args with
      | a :: args' =>
          if dict_has p kwargs then None
          else cons a <$> bind params' args' kwargs
      | [] =>
          match dict_get p kwargs with
          | Some v => cons v <$> bind params' [] (dict_remove p kwargs)
          | None =>
              match dflt with
              | Some d => cons d <$> bind params' [] kwargs
              | None => None
              end
          end
      end
  end.

(** Calling the bound method [f] with positional arguments [args] and
    keyword arguments [kwargs]; [None] when the arguments do not bind. *)
Definition call (f : bound_method) (args : list value) (kwargs : list (string * value))
    (fs : gmap string string) : option (gmap string string * outcome value) :=
  let self := im_self f in
  match im_func f, bind (signature (im_func f)) args kwargs with
  | M_add, Some [a; b] => Some (fs, add self a b)
  | M_greet, Some [name] => Some (fs, greet self name)
  | M_log_message, Some [message] => Some (log_message self message fs)
  | M_get_log, Some [] => Some (get_log self fs)
  | M_clear_log, Some [] => Some (clear_log self fs)
  | M_cause_internal_error, Some [trigger] => Some (fs, cause_internal_error self trigger)
  | M_strict_add, Some [a; b] => Some (fs, strict_add self a b)
  | M_demo_method, Some [param1; param2] => Some (fs, demo_method self param1 param2)
  | _, _ => None
  end.

End JSONRPCServer.

(** ** The response manager *)

(** The text of a request, seen through [json.loads]: either it is not a
    JSON document (empty, truncated, ...), or it is the JSON text of a
    value. *)
Inductive text : Type :=
| Garbage (s : string)
| Document (v : value).

(** Modelled from the spec: [JSONRPCResponseManager.handle] of the [jsonrpc]
    package, which [do_POST] calls and which is not part of the sources.
    The definitions follow the spec's Envelope Validator (parse; a batch is
    an array, the empty array is an Invalid Request; an envelope is an
    object whose [jsonrpc] is "2.0" and whose [method] is a non-empty
    string; an envelope with an [id] key is a request, without it a
    notification), its Dispatcher/Invoker (unknown method: -32601; params
    that do not bind: -32602; a handler that signals a parameter problem,
    which the handlers do by raising [TypeError]: -32602; any other handler
    exception: -32000 with the exception's message as [data]; nothing is
    emitted for a notification) and its Response Encoder (one envelope, an
    array of envelopes in input order, or nothing). *)
Module JSONRPCResponseManager.

Definition loads (t : text) : option value :=
  match t with
  | Garbage _ => None
  | Document v => Some v
  end.

Definition error_object (code : Z) (message : string) (data : option value) : value :=
  VDict ([("code", VInt code); ("message", VStr message)]
         ++ match data with Some d => [("data", d)] | None => [] end).

Definition error_response (code : Z) (message : string) (data : option value)
    (id : value) : value :=
  VDict [("jsonrpc", VStr "2.0"); ("error", error_object code message data); ("id", id)].

Definition result_response (result id : value) : value :=
  VDict [("jsonrpc", VStr "2.0"); ("result", result); ("id", id)].

(** A validated call.  [call_id] is [None] for a notification. *)
Record rpc_call : Type := Call {
  call_method : string;
  call_params : option value;
  call_id : option value
}.

Definition validate (v : value) : option rpc_call :=
  match v with
  | VDict d =>
      match dict_get "jsonrpc" d, dict_get "method" d with
      | Some (VStr version), Some (VStr m) =>
          if String.eqb version "2.0" && negb (String.eqb m EmptyString)
          then Some (Call m (dict_get "params" d) (dict_get "id" d))
          else None
      | _, _ => None
      end
  | _ => None
  end.

(** The [id] of a malformed envelope "if extractable, else null". *)
Definition extract_id (v : value) : value :=
  match v with
  | VDict d => default VNone (dict_get "id" d)
  | _ => VNone
  end.

(** A sequence binds positionally, a mapping by name, absence means no
    arguments; anything else has the wrong shape. *)
Definition split_params (p : option value) : option (list value * list (string * value)) :=
  match p with
  | None => Some ([], [])
  | Some (VList items) => Some (items, [])
  | Some (VDict entries) => Some ([], entries)
  | Some _ => None
  end.

Definition with_files (fs : gmap string string) (w : world) : world :=
  World fs (method_map w) (next_oid w).

(** Look up, bind, invoke, and build the envelope for [id]. *)
Definition dispatch (c : rpc_call) (w : world) : world * value :=
  let id := default VNone (call_id c) in
  match dispatcher.lookup (call_method c) w with
  | None => (w, error_response (-32601) "Method not found" None id)
  | Some f =>
      match split_params (call_params c) with
      | None => (w, error_response (-32602) "Invalid params" None id)
      | Some (args, kwargs) =>
          match JSONRPCServer.call f args kwargs (files w) with
          | None => (w, error_response (-32602) "Invalid params" None id)
          | Some (fs, Return r) => (with_files fs w, result_response r id)
          | Some (fs, Raise e) =>
              (with_files fs w,
               if issubclass (exc_type e) TypeError
               then error_response (-32602) "Invalid params" (Some (VStr (exc_msg e))) id
               else error_response (-32000) "Server error" (Some (VStr (exc_msg e))) id)
          end
      end
  end.

(** One element of the input: the envelope owed for it, if any. *)
Definition handle_one (v : value) (w : world) : world * option value :=
  match validate v with
  | None => (w, Some (error_response (-32600) "Invalid Request" None (extract_id v)))
  | Some c =>
      let '(w1, r) := dispatch c w in
      (w1, match call_id c with Some _ => Some r | None => None end)
  end.

Fixpoint handle_each (elems : list value) (w : world) : world * list value :=
  match elems with
  | [] => (w, [])
  | v :: rest =>
      let '(w1, r) := handle_one v w in
      let '(w2, rs) := handle_each rest w1 in
      (w2, match r with Some x => x :: rs | None => rs end)
  end.

(** [handle(request_data, dispatcher)]: the [data] of the response, or
    [None] when no response is owed. *)
Definition handle (request_data : text) (w : world) : world * option value :=
  match loads request_data with
  | None => (w, Some (error_response (-32700) "Parse error" None VNone))
  | Some (VList []) => (w, Some (error_response (-32600) "Invalid Request" None VNone))
  | Some (VList elems) =>
      let '(w1, rs) := handle_each elems w in
      (w1, match rs with [] => None | _ => Some (VList rs) end)
  | Some v => handle_one v w
  end.

End JSONRPCResponseManager.

(** ** The HTTP adapter *)

(** What [do_POST] sees of an HTTP request: [content_length] is the outcome
    of [int(self.headers["Content-Length"])] (it raises when the header is
    missing or is not a number), and [read_decode n] is the outcome of
    [self.rfile.read(n).decode()] (it raises [UnicodeDecodeError] when the
    bytes read are not UTF-8). *)
Record http_request : Type := Request {
  content_length : outcome Z;
  read_decode : Z -> outcome text
}.

(** What is written to [wfile]: the empty bytes, or
    [json.dumps(v).encode()]. *)
Inductive written : Type :=
| Nothing
| Dumps (v : value).

Record http_response : Type := Response {
  status : Z;
  headers : list (string * string);
  body : written
}.

Module RequestHandler.

(** [send_response(200)], the content type header, [end_headers()] and
    one [wfile.write], as the client receives them when nothing fails in
    between. *)
Definition reply (b : written) : http_response :=
  Response 200 [("Content-type", "application/json")] b.

(** The dictionary built in both [except] clauses. *)
Definition error_response (e : exception) : value :=
  VDict [("jsonrpc", VStr "2.0");
         ("error", VDict [("code", VInt (-32603));
                          ("message", VStr "Internal error");
                          ("data", VStr (exc_msg e))]);
         ("id", VNone)].

(** The body of the [try] statement, for a [json.dumps] that returns. *)
Definition do_POST_try (req : http_request) (w : world) : world * outcome http_response :=
  match content_length req with
  | Raise e => (w, Raise e)
  | Return n =>
      match read_decode req n with
      | Raise e => (w, Raise e)
      | Return request_data =>
          let '(w1, response) := JSONRPCResponseManager.handle request_data w in
          (w1, Return (reply match response with
                             | Some data => Dumps data
                             | None => Nothing
                             end))
      end
  end.

(** The [try] statement with its two [except] clauses; an exception that
    neither clause catches leaves [do_POST]. *)
Definition do_POST (req : http_request) (w : world) : world * outcome http_response :=
  match do_POST_try req w with
  | (w1, Return r) => (w1, Return r)
  | (w1, Raise e) =>
      if caught_by e [ValueError; KeyError; UnicodeDecodeError]
      then (w1, Return (reply (Dumps (error_response e))))
      else if caught_by e [Exception]
      then (w1, Return (reply (Dumps (error_response e))))
      else (w1, Raise e)
  end.

End RequestHandler.

(** ** The connection *)

(** What the adapter puts on the connection, in order: [end_headers()]
    sends the status line given to [send_response] with the headers that
    [do_POST] gives to [send_header] (the [Server] and [Date] headers, which
    [send_response] adds by itself, are left out), and [wfile.write] sends
    the bytes it is given. *)
Inductive sent : Type :=
| Head (status : Z) (headers : list (string * string))
| Body (b : written).

(** [json.dumps] on the values of the model, as far as the digit limit
    goes: [None] when it returns, the exception when it raises.  The
    [RecursionError] that [json.dumps] raises on a value nested deeper than
    the interpreter allows is not part of this function; the statements
    about [Wire.do_POST] hold for every serialiser and use this one at
    concrete inputs only. *)
Definition json_dumps (v : value) : option exception :=
  if oversized v then Some digit_limit_error else None.

(** [do_POST] call by call.  The serialiser is the parameter [dumps]:
    [dumps v] is [None] when [json.dumps(v)] returns and the exception that
    it raises otherwise.  The status line and the headers are sent before
    [json.dumps(response.data)] is evaluated, and each [except] clause sends
    a status line and headers of its own before it serialises and writes
    its envelope. *)
Module Wire.

(** The state after the call, what was sent, and the exception that left
    [do_POST], if any. *)
Record exchange : Type := Exchange {
  state : world;
  wire : list sent;
  escaped : option exception
}.

Section Serialiser.

Variable dumps : value -> option exception.

(** [send_response(200)], [send_header("Content-type", "application/json")]
    and [end_headers()]. *)
Definition head : sent := Head 200 [("Content-type", "application/json")].

(** The body of the [try] statement. *)
Definition do_POST_try (req : http_request) (w : world) : exchange :=
  match content_length req with
  | Raise e => Exchange w [] (Some e)
  | Return n =>
      match read_decode req n with
      | Raise e => Exchange w [] (Some e)
      | Return request_data =>
          let '(w1, response) := JSONRPCResponseManager.handle request_data w in
          match response with
          | Some data =>
              match dumps data with
              | None => Exchange w1 [head; Body (Dumps data)] None
              | Some e => Exchange w1 [head] (Some e)
              end
          | None => Exchange w1 [head; Body Nothing] None
          end
      end
  end.

(** The body of either [except] clause, entered with the exception [e]. *)
Definition except_clause (e : exception) (x : exchange) : exchange :=
  match dumps (RequestHandler.error_response e) with
  | None =>
      Exchange (state x)
        (wire x ++ [head; Body (Dumps (RequestHandler.error_response e))]) None
  | Some e' => Exchange (state x) (wire x ++ [head]) (Some e')
  end.

Definition do_POST (req : http_request) (w : world) : exchange :=
  let x := do_POST_try req w in
  match escaped x with
  | None => x
  | Some e =>
      if caught_by e [ValueError; KeyError; UnicodeDecodeError] then except_clause e x
      else if caught_by e [Exception] then except_clause e x
      else x
  end.

End Serialiser.

End Wire.

(** ** Vocabulary of the statements *)

(** The request [req] carries the JSON text of [v]: its [Content-Length] is
    a number, and reading that many bytes and decoding them gives the
    text. *)
Definition carries (req : http_request) (v : value) : Prop :=
  exists n, content_length req = Return n /\ read_decode req n = Return (Document v).

(** A POST with [Content-Length: n] whose [n] bytes are the JSON text of
    [v]. *)
Definition post_json (n : Z) (v : value) : http_request :=
  Request (Return n) (fun _ => Return (Document v)).

(** [do_POST] handles [req] in state [w] without raising and answers with
    status 200, the JSON content type and the body [b]. *)
Definition answers (req : http_request) (w : world) (b : written) : Prop :=
  snd (RequestHandler.do_POST req w)
  = Return (Response 200 [("Content-type", "application/json")] b).

(** The status line 200 with the JSON content type. *)
Definition http_200 : sent := Head 200 [("Content-type", "application/json")].

(** With the serialiser [dumps], [do_POST] handles [req] in state [w]
    without raising and puts [items] on the connection, in this order. *)
Definition sends (dumps : value -> option exception) (req : http_request) (w : world)
    (items : list sent) : Prop :=
  Wire.wire (Wire.do_POST dumps req w) = items
  /\ Wire.escaped (Wire.do_POST dumps req w) = None.

(** What [int(self.headers["Content-Length"])] and
    [self.rfile.read(content_length).decode()] give. *)
Definition request_text (req : http_request) : outcome text :=
  match content_length req with
  | Return n => read_decode req n
  | Raise e => Raise e
  end.

(** [v] is a JSON-RPC 2.0 envelope that names method [m]; [params] and [id]
    are its optional members. *)
Definition is_call (v : value) (m : string) (params id : option value) : Prop :=
  exists d, v = VDict d
            /\ dict_get "jsonrpc" d = Some (VStr "2.0")
            /\ dict_get "method" d = Some (VStr m)
            /\ dict_get "params" d = params
            /\ dict_get "id" d = id.



(** The response entries in a body: none, the entries of an array, or the
    one envelope. *)
Definition entries (b : written) : list value :=
  match b with
  | Nothing => []
  | Dumps (VList rs) => rs
  | Dumps v => [v]
  end.

(** The envelopes a client sends. *)
Definition request (m : string) (params id : value) : value :=
  VDict [("jsonrpc", VStr "2.0"); ("method", VStr m); ("params", params); ("id", id)].

Definition notification (m : string) (params : value) : value :=
  VDict [("jsonrpc", VStr "2.0"); ("method", VStr m); ("params", params)].

(** The state of a process that has just run [JSONRPCServer(host="localhost",
    port=4000)], as [main] does. *)
Definition started : world * server :=
  JSONRPCServer.__init__ "localhost" 4000 "server_log.txt" (World ∅ ∅ 0).

(** The Error Object and the Response Envelope of the data model. *)
Definition is_error_object (v : value) : bool :=
  match v with
  | VDict d =>
      match dict_get "code" d, dict_get "message" d with
      | Some (VInt _), Some (VStr _) =>
          forallb (fun kv => existsb (String.eqb (fst kv)) ["code"; "message"; "data"]) d
      | _, _ => false
      end
  | _ => false
  end.

Definition is_response_envelope (v : value) : bool :=
  match v with
  | VDict d =>
      match dict_get "jsonrpc" d with
      | Some (VStr version) =>
          String.eqb version "2.0"
          && dict_has "id" d
          && match dict_get "result" d, dict_get "error" d with
             | Some _, None => true
             | None, Some e => is_error_object e
             | _, _ => false
             end
          && forallb (fun kv => existsb (String.eqb (fst kv)) ["jsonrpc"; "result"; "error"; "id"]) d
      | _ => false
      end
  | _ => false
  end.

Definition response_id (v : value) : option value :=
  match v with
  | VDict d => dict_get "id" d
  | _ => None
  end.

Definition error_code (v : value) : option Z :=
  match v with
  | VDict d =>
      match dict_get "error" d with
      | Some (VDict e) =>
          match dict_get "code" e with
          | Some (VInt c) => Some c
          | _ => None
          end
      | _ => None
      end
  | _ => None
  end.

(** [m] occurs in [s]. *)
Definition contains (s m : string) : Prop :=
  exists pre post, s = pre +:+ m +:+ post.

(** What may be written: nothing, one envelope, or for a batch a non-empty
    array of envelopes. *)
Definition well_formed_body (b : written) : bool :=
  match b with
  | Nothing => true
  | Dumps (VList (r :: rs)) => forallb is_response_envelope (r :: rs)
  | Dumps v => is_response_envelope v
  end.

(** A batch of one [add] request. *)
Definition batch_of_one : http_request :=
  post_json 74 (VList [request "add" (VDict [("a", VInt 5); ("b", VInt 3)]) (VInt 1)]).

(** The request [add(10^4300 - 1, 1)] with [id] 7: two integers that a JSON
    text can hold, whose sum has 4301 digits. *)
Definition big_sum_request : http_request :=
  post_json 4361 (request "add" (VList [VInt (str_digits_bound - 1); VInt 1]) (VInt 7)).

(** The message "a\rb". *)
Definition message_with_cr : string := String "a" (String CR (String "b" EmptyString)).

Definition error_data (v : value) : option value :=
  match v with
  | VDict d =>
      match dict_get "error" d with
      | Some (VDict e) => dict_get "data" e
      | _ => None
      end
  | _ => None
  end.

Definition result_of (v : value) : option value :=
  match v with
  | VDict d => dict_get "result" d
  | _ => None
  end.

(** An integer at the JSON level: a number, not [true] or [false]. *)
Definition json_integer (v : value) : bool :=
  match v with
  | VInt _ => true
  | _ => false
  end.

(** The ways a client passes [a] and [b]: by position, or by name in
    either order. *)
Definition passes_a_b (params a b : value) : Prop :=
  params = VList [a; b]
  \/ params = VDict [("a", a); ("b", b)]
  \/ params = VDict [("b", b); ("a", a)].



(** The eight bindings of [_setup_methods], all to [self]. *)
Definition registry_of (self : server) : gmap string bound_method :=
  list_to_map
    [("add", Bound self M_add);
     ("strict_add", Bound self M_strict_add);
     ("cause_internal_error", Bound self M_cause_internal_error);
     ("greet", Bound self M_greet);
     ("demo_method", Bound self M_demo_method);
     ("log_message", Bound self M_log_message);
     ("get_log", Bound self M_get_log);
     ("clear_log", Bound self M_clear_log)].

Definition method_names : gset string :=
  list_to_set ["add"; "strict_add"; "cause_internal_error"; "greet"; "demo_method";
               "log_message"; "get_log"; "clear_log"].

(** ** Vocabulary of the log properties *)

(** What the log of [self] holds; nothing when the file does not exist. *)
Definition log_contents (self : server) (fs : gmap string string) : string :=
  default EmptyString (fs !! log_file self).

(** [log_message] called for each of [messages] in turn, whether the calls
    return or raise. *)
Fixpoint log_all (self : server) (messages : list value)
    (fs : gmap string string) : gmap string string :=
  match messages with
  | [] => fs
  | message :: rest => log_all self rest (fst (JSONRPCServer.log_message self message fs))
  end.

(** The lines [m1], [m2], ... each followed by a line feed. *)
Fixpoint concat_lines (messages : list string) : string :=
  match messages with
  | [] => EmptyString
  | m :: rest => m +:+ newline +:+ concat_lines rest
  end.

(** [t] is a [str]. *)
Definition is_str (v : value) : bool :=
  match v with
  | VStr _ => true
  | _ => false
  end.

(** [t] is a [list]. *)
Definition is_list (v : value) : bool :=
  match v with
  | VList _ => true
  | _ => false
  end.

(** The pairs of arguments that [+] accepts: two [int] instances, two
    strings, or two lists. *)
Definition addable (a b : value) : bool :=
  (isinstance_int a && isinstance_int b) || (is_str a && is_str b) || (is_list a && is_list b).

(** ** The client's view of the log *)

(** The part of [client.py] that turns the result of [get_log] into what
    the page shows, in [_display_method_response].  The Streamlit calls are
    reduced to what they are given to display. *)
Module JSONRPCPlaygroundApp.

(** [c.isspace()] for a character below 256. *)
Definition isspace (c : ascii) : bool :=
  let n := N_of_ascii c in
  ((9 <=? n) && (n <=? 13) || (28 <=? n) && (n <=? 32) || (n =? 133) || (n =? 160))%N.

Fixpoint lstrip (s : string) : string :=
  match s with
  | EmptyString => EmptyString
  | String c rest => if isspace c then lstrip rest else s
  end.

Fixpoint rstrip (s : string) : string :=
  match s with
  | EmptyString => EmptyString
  | String c rest =>
      match rstrip rest with
      | EmptyString => if isspace c then EmptyString else String c EmptyString
      | kept => String c kept
      end
  end.

(** [s.strip()] *)
Definition strip (s : string) : string := rstrip (lstrip s).

(** The first piece of [s.split("\n")] and the pieces after it. *)
Fixpoint split_pieces (s : string) : string * list string :=
  match s with
  | EmptyString => (EmptyString, [])
  | String c rest =>
      let '(piece, pieces) := split_pieces rest in
      if Ascii.eqb c LF then (EmptyString, piece :: pieces)
      else (String c piece, pieces)
  end.

(** [s.split("\n")] *)
Definition split (s : string) : list string :=
  let '(piece, pieces) := split_pieces s in piece :: pieces.

Definition nonempty (line : string) : bool :=
  match line with
  | EmptyString => false
  | String _ _ => true
  end.

(** [[line for line in log_content.strip().split("\n") if line]] *)
Definition log_lines (log_content : string) : list string :=
  List.filter nonempty (split (strip log_content)).

(** [[f"{i+1}. {entry}" for i, entry in enumerate(entries)]], counting
    from [i]. *)
Fixpoint numbered (i : Z) (entries : list string) : list string :=
  match entries with
  | [] => []
  | entry :: rest => (pretty (i + 1) +:+ ". " +:+ entry) :: numbered (i + 1) rest
  end.

(** What the page shows for the log: the numbered entries, newest first,
    or the note that the log is empty. *)
Inductive log_view : Type :=
| Entries (markdown : string)
| EmptyNote.

(** The branch [if method == "get_log"] of [_display_method_response]. *)
Definition display_log (log_content : string) : log_view :=
  let log_lines := log_lines log_content in
  match log_lines with
  | [] => EmptyNote
  | _ => Entries (join newline (numbered 0 (rev log_lines)))
  end.

End JSONRPCPlaygroundApp.

(** A message that the log view shows as it was logged: not empty, on one
    line, without white space at either end. *)
Fixpoint ends_with_space (m : string) : bool :=
  match m with
  | EmptyString => false
  | String c EmptyString => JSONRPCPlaygroundApp.isspace c
  | String _ rest => ends_with_space rest
  end.

Definition plain (m : string) : bool :=
  match m with
  | EmptyString => false
  | String c _ =>
      negb (JSONRPCPlaygroundApp.isspace c) && negb (ends_with_space m)
      && negb (occurs LF m) && negb (occurs CR m)
  end.

(** The view of the result of a [get_log] call. *)
Definition view_of (result : outcome value) : option JSONRPCPlaygroundApp.log_view :=
  match result with
  | Return (VStr log_content) => Some (JSONRPCPlaygroundApp.display_log log_content)
  | _ => None
  end.

(** [s] holds nothing but white space. *)
Fixpoint blank (s : string) : bool :=
  match s with
  | EmptyString => true
  | String c rest => JSONRPCPlaygroundApp.isspace c && blank rest
  end.

(** ** The launcher *)

(** [int(s)] for a string: white space at both ends is dropped, then an
    optional sign and decimal digits, where single underscores may stand
    between digits; [None] is [ValueError], which CPython also raises
    for more than [max_str_digits] digits (the default of
    [sys.set_int_max_str_digits]; underscores and the sign do not
    count). *)
Definition int_space (c : ascii) : bool :=
  let n := N_of_ascii c in
  ((9 <=? n) && (n <=? 13) || (n =? 32) || (n =? 133) || (n =? 160))%N.

Definition digit_value (c : ascii) : option Z :=
  let n := N_of_ascii c in
  if ((48 <=? n) && (n <=? 57))%N then Some (Z.of_N n - 48) else None.

Fixpoint lstrip_by (space : ascii -> bool) (s : string) : string :=
  match s with
  | EmptyString => EmptyString
  | String c rest => if space c then lstrip_by space rest else s
  end.

Fixpoint rstrip_by (space : ascii -> bool) (s : string) : string :=
  match s with
  | EmptyString => EmptyString
  | String c rest =>
      match rstrip_by space rest with
      | EmptyString => if space c then EmptyString else String c EmptyString
      | kept => String c kept
      end
  end.

(** The digits after the sign; [after_digit] tells whether the previous
    character was a digit. *)
Fixpoint digits (acc : Z) (after_digit : bool) (s : string) : option Z :=
  match s with
  | EmptyString => if after_digit then Some acc else None
  | String c rest =>
      match digit_value c with
      | Some d => digits (acc * 10 + d) true rest
      | None =>
          if Ascii.eqb c "_" && after_digit then digits acc false rest else None
      end
  end.

Fixpoint digit_count (s : string) : Z :=
  match s with
  | EmptyString => 0
  | String c rest =>
      match digit_value c with
      | Some _ => 1 + digit_count rest
      | None => digit_count rest
      end
  end.

Definition py_int (s : string) : option Z :=
  let trimmed := rstrip_by int_space (lstrip_by int_space s) in
  if max_str_digits <? digit_count trimmed then None
  else
    match trimmed with
    | String "+" rest => digits 0 false rest
    | String "-" rest => Z.opp <$> digits 0 false rest
    | _ => digits 0 false trimmed
    end.

(** The launcher of [main.py].  The operating system and the network are
    an [environment] that answers the calls the launcher makes; what the
    launcher does is recorded as [calls], and the state of the two child
    processes is kept beside it.  Output printed with [print] is left out.
    A [KeyboardInterrupt] is taken to arrive while a readiness request is
    under way or while [start] waits for the client. *)
Module PlaygroundLauncher.

(** The two child processes. *)
Inductive role : Type :=
| ServerScript
| StreamlitClient.

(** What [requests.post] does in [_wait_for_server]: a response with a
    status code, an exception of class [Exception] (no connection, time
    out), or a [KeyboardInterrupt]. *)
Inductive attempt : Type :=
| Answered (status_code : Z)
| Failed
| Interrupted.

Record environment : Type := Environment {
  popen_works : role -> bool;
  probes : Z -> nat -> attempt;
  client_exits : bool;
  ignores_terminate : role -> bool
}.

Inductive event : Type :=
| Popen (r : role) (args : list string) (started : bool)
| Post (port : Z) (i : nat)
| Sleep
| WaitForClient
| Terminate (r : role)
| WaitTimeout (r : role) (expired : bool)
| Kill (r : role)
| Wait (r : role).

Record os : Type := OS {
  server_running : bool;
  client_running : bool;
  calls : list event
}.

Definition running (r : role) (o : os) : bool :=
  match r with
  | ServerScript => server_running o
  | StreamlitClient => client_running o
  end.

Definition set_running (r : role) (b : bool) (o : os) : os :=
  match r with
  | ServerScript => OS b (client_running o) (calls o)
  | StreamlitClient => OS (server_running o) b (calls o)
  end.

Definition call (e : event) (o : os) : os :=
  OS (server_running o) (client_running o) (calls o ++ [e]).

Record launcher : Type := Launcher {
  server_port : Z;
  client_port : Z;
  server_proc : option role;
  client_proc : option role
}.

Definition __init__ (server_port client_port : Z) : launcher :=
  Launcher server_port client_port None None.

(** The command lines of the two children, after [sys.executable]; the
    two scripts are named by their path in the repository. *)
Definition server_command (self : launcher) : list string :=
  ["scripts/run_server.py"].

Definition client_command (self : launcher) : list string :=
  ["-m"; "streamlit"; "run"; "scripts/run_client.py";
   "--server.port"; pretty (client_port self);
   "--server.headless"; "true"].

(** [subprocess.Popen(...)] inside [try] ... [except Exception]: the
    process object, or [None] when the process could not be started. *)
Definition popen (r : role) (args : list string) (env : environment) (o : os) :
    option role * os :=
  if popen_works env r
  then (Some r, set_running r true (call (Popen r args true) o))
  else (None, call (Popen r args false) o).

Definition _start_server (self : launcher) (env : environment) (o : os) : launcher * os :=
  let '(proc, o1) := popen ServerScript (server_command self) env o in
  (Launcher (server_port self) (client_port self) proc (client_proc self), o1).

Definition _start_client (self : launcher) (env : environment) (o : os) : launcher * os :=
  let '(proc, o1) := popen StreamlitClient (client_command self) env o in
  (Launcher (server_port self) (client_port self) (server_proc self) proc, o1).

(** The [for] loop of [_wait_for_server] with [n] iterations left, at
    request number [i]; the requests go to [http://localhost:port].
    [Some true] and [Some false] are the returned values, [None] is a
    [KeyboardInterrupt] that leaves the method. *)
Fixpoint wait_loop (env : environment) (port : Z) (n i : nat) (o : os) : option bool * os :=
  match n with
  | O => (Some false, o)
  | S n' =>
      let o1 := call (Post port i) o in
      match probes env port i with
      | Answered status_code =>
          if status_code =? 200 then (Some true, o1)
          else wait_loop env port n' (S i) o1
      | Failed => wait_loop env port n' (S i) (call Sleep o1)
      | Interrupted => (None, o1)
      end
  end.

Definition _wait_for_server (self : launcher) (timeout : Z) (env : environment)
    (o : os) : option bool * os :=
  wait_loop env (server_port self) (Z.to_nat (timeout * 5)) 0 o.

(** [terminate()], [wait(timeout=2)], and on [TimeoutExpired] [kill()] and
    [wait()].  A process that has exited is not signalled any more and its
    [wait] returns at once. *)
Definition stop_process (r : role) (env : environment) (o : os) : os :=
  let o1 := call (Terminate r) o in
  if running r o1 && ignores_terminate env r
  then set_running r false (call (Wait r) (call (Kill r) (call (WaitTimeout r true) o1)))
  else set_running r false (call (WaitTimeout r false) o1).

Definition _cleanup (self : launcher) (env : environment) (o : os) : os :=
  let o1 := match server_proc self with
            | Some r => stop_process r env o
            | None => o
            end in
  match client_proc self with
  | Some r => stop_process r env o1
  | None => o1
  end.

(** What [start] returns: [False] after a failed wait, otherwise nothing. *)
Inductive returned : Type :=
| ReturnedFalse
| ReturnedNone.

(** [self.client_proc.wait()]: the client exits, or a [KeyboardInterrupt]
    ends the wait. *)
Definition wait_for_client (self : launcher) (env : environment) (o : os) : os :=
  match client_proc self with
  | Some r =>
      let o1 := call WaitForClient o in
      if client_exits env then set_running r false o1 else o1
  | None => o
  end.

(** [start]: the [try] block, the [except KeyboardInterrupt] clause, which
    only prints, and the [finally] clause, which runs [_cleanup] on every
    path, also after the [_cleanup] of the failed wait. *)
Definition start (self : launcher) (env : environment) (o : os) : launcher * os * returned :=
  let '(self1, o1) := _start_server self env o in
  match _wait_for_server self1 20 env o1 with
  | (Some false, o2) =>
      let o3 := _cleanup self1 env o2 in
      (self1, _cleanup self1 env o3, ReturnedFalse)
  | (Some true, o2) =>
      let '(self2, o3) := _start_client self1 env o2 in
      let o4 := wait_for_client self2 env o3 in
      (self2, _cleanup self2 env o4, ReturnedNone)
  | (None, o2) => (self1, _cleanup self1 env o2, ReturnedNone)
  end.

(** [sys.argv[i]] converted with [int], or [default] when the argument is
    missing or [int] raises [ValueError]. *)
Definition port_argument (argv : list string) (i : nat) (default : Z) : Z :=
  match argv !! i with
  | Some text =>
      match py_int text with
      | Some port => port
      | None => default
      end
  | None => default
  end.

(** [main()], given [sys.argv]. *)
Definition main (argv : list string) (env : environment) (o : os) : launcher * os * returned :=
  let server_port := port_argument argv 1 4000 in
  let client_port := port_argument argv 2 8501 in
  let launcher := __init__ server_port client_port in
  start launcher env o.

End PlaygroundLauncher.

(** No child process runs and nothing has been called yet. *)
Definition quiet : PlaygroundLauncher.os := PlaygroundLauncher.OS false false [].

(** The number of requests and of sleeps among the calls. *)
Definition is_post (e : PlaygroundLauncher.event) : bool :=
  match e with
  | PlaygroundLauncher.Post _ _ => true
  | _ => false
  end.

Definition is_sleep (e : PlaygroundLauncher.event) : bool :=
  match e with
  | PlaygroundLauncher.Sleep => true
  | _ => false
  end.

(** What the launcher's request sees of a request that [do_POST] handled. *)
Definition attempt_of (reply : outcome http_response) : PlaygroundLauncher.attempt :=
  match reply with
  | Return r => PlaygroundLauncher.Answered (status r)
  | Raise _ => PlaygroundLauncher.Failed
  end.

Definition posts (o : PlaygroundLauncher.os) : nat :=
  length (List.filter is_post (PlaygroundLauncher.calls o)).

Definition sleeps (o : PlaygroundLauncher.os) : nat :=
  length (List.filter is_sleep (PlaygroundLauncher.calls o)).

(** The attempts after which [_wait_for_server] goes on: a response with
    another status than 200, and an exception. *)
Definition keeps_waiting (a : PlaygroundLauncher.attempt) : bool :=
  match a with
  | PlaygroundLauncher.Answered status_code => negb (status_code =? 200)
  | PlaygroundLauncher.Failed => true
  | PlaygroundLauncher.Interrupted => false
  end.

Definition is_failed (a : PlaygroundLauncher.attempt) : bool :=
  match a with
  | PlaygroundLauncher.Failed => true
  | _ => false
  end.

Definition role_eqb (r s : PlaygroundLauncher.role) : bool :=
  match r, s with
  | PlaygroundLauncher.ServerScript, PlaygroundLauncher.ServerScript
  | PlaygroundLauncher.StreamlitClient, PlaygroundLauncher.StreamlitClient => true
  | _, _ => false
  end.

(** [self] holds the process [r] in one of its two attributes. *)
Definition holds (self : PlaygroundLauncher.launcher) (r : PlaygroundLauncher.role) : bool :=
  match PlaygroundLauncher.server_proc self with
  | Some s => role_eqb s r
  | None => false
  end
  || match PlaygroundLauncher.client_proc self with
     | Some s => role_eqb s r
     | None => false
     end.

(** [kill()] has been called on [r]. *)
Definition killed (r : PlaygroundLauncher.role) (o : PlaygroundLauncher.os) : bool :=
  existsb (fun e => match e with
                    | PlaygroundLauncher.Kill s => role_eqb s r
                    | _ => false
                    end) (PlaygroundLauncher.calls o).

(** [Popen] has been called for [r]. *)
Definition launched (r : PlaygroundLauncher.role) (o : PlaygroundLauncher.os) : bool :=
  existsb (fun e => match e with
                    | PlaygroundLauncher.Popen s _ _ => role_eqb s r
                    | _ => false
                    end) (PlaygroundLauncher.calls o).

(** The number of [terminate()] calls on [r]. *)
Definition terminations (r : PlaygroundLauncher.role) (o : PlaygroundLauncher.os) : nat :=
  length (List.filter (fun e => match e with
                                | PlaygroundLauncher.Terminate s => role_eqb s r
                                | _ => false
                                end) (PlaygroundLauncher.calls o)).

(** * Properties *)

(** ** The methods on the inputs of the test suite *)

Section MethodExamples.

Let self : server := snd started.

Example add_2_3 : JSONRPCServer.add self (VInt 2) (VInt 3) = Return (VInt 5).
Proof. reflexivity. Qed.

Example add_negative : JSONRPCServer.add self (VInt (-5)) (VInt (-3)) = Return (VInt (-8)).
Proof. reflexivity. Qed.

Example greet_Alice : JSONRPCServer.greet self (VStr "Alice") = Return (VStr "Hello, Alice!").
Proof. reflexivity. Qed.

Example greet_empty : JSONRPCServer.greet self (VStr EmptyString) = Return (VStr "Hello, !").
Proof. reflexivity. Qed.

Example cause_internal_error_safe :
  JSONRPCServer.cause_internal_error self (VStr "safe")
  = Return (VStr "No error triggered. Received: safe").
Proof. reflexivity. Qed.

Example strict_add_5_3 : JSONRPCServer.strict_add self (VInt 5) (VInt 3) = Return (VInt 8).
Proof. reflexivity. Qed.

Example strict_add_str :
  JSONRPCServer.strict_add self (VStr "5") (VInt 3)
  = Raise (Exc TypeError "Both parameters must be integers").
Proof. reflexivity. Qed.

Example demo_method_test_42 :
  JSONRPCServer.demo_method self (VStr "test") (VInt 42)
  = Return (VStr "Received: test and 42").
Proof. reflexivity. Qed.

Example get_log_missing_file :
  snd (JSONRPCServer.get_log self ∅) = Return (VStr "Log is empty.").
Proof. reflexivity. Qed.

Example clear_log_result :
  snd (JSONRPCServer.clear_log self ∅) = Return (VStr "Log cleared.").
Proof. reflexivity. Qed.

End MethodExamples.

(** ** General facts *)

Lemma str_digits_bound_eq : str_digits_bound = 10 ^ max_str_digits.
Proof. vm_compute. reflexivity. Qed.

(** An integer is refused exactly when it has more than [max_str_digits]
    digits. *)
Lemma oversized_int n : oversized (VInt n) = (10 ^ max_str_digits <=? Z.abs n).
Proof. cbn [oversized]. rewrite str_digits_bound_eq. reflexivity. Qed.

Lemma validate_call v m params id :
  is_call v m params id -> m <> EmptyString ->
  JSONRPCResponseManager.validate v = Some (JSONRPCResponseManager.Call m params id).
Proof.
  intros (d & -> & Hver & Hm & Hp & Hid) Hne. simpl.
  rewrite Hver, Hm, Hp, Hid.
  destruct (String.eqb m EmptyString) eqn:E; [apply String.eqb_eq in E; contradiction | reflexivity].
Qed.

Lemma handle_dict d w :
  JSONRPCResponseManager.handle (Document (VDict d)) w
  = JSONRPCResponseManager.handle_one (VDict d) w.
Proof. reflexivity. Qed.

Lemma do_POST_carries req v w :
  carries req v ->
  RequestHandler.do_POST req w
  = let '(w1, response) := JSONRPCResponseManager.handle (Document v) w in
    (w1, Return (RequestHandler.reply match response with
                                      | Some data => Dumps data
                                      | None => Nothing
                                      end)).
Proof.
  intros (n & Hn & Hr). unfold RequestHandler.do_POST, RequestHandler.do_POST_try.
  rewrite Hn, Hr. destruct (JSONRPCResponseManager.handle (Document v) w); reflexivity.
Qed.

(** A single call that validates: what [do_POST] answers. *)
Lemma do_POST_call req v m params id w :
  carries req v -> is_call v m params id -> m <> EmptyString ->
  RequestHandler.do_POST req w
  = let '(w1, r) := JSONRPCResponseManager.dispatch (JSONRPCResponseManager.Call m params id) w in
    (w1, Return (RequestHandler.reply match id with
                                      | Some _ => Dumps r
                                      | None => Nothing
                                      end)).
Proof.
  intros Hreq Hcall Hne. rewrite (do_POST_carries _ _ _ Hreq).
  pose proof (validate_call _ _ _ _ Hcall Hne) as Hv.
  destruct Hcall as (d & -> & _). rewrite handle_dict.
  unfold JSONRPCResponseManager.handle_one. rewrite Hv.
  destruct (JSONRPCResponseManager.dispatch _ w) as [w1 r]. simpl.
  destruct id; reflexivity.
Qed.

(** ** Notifications *)





(** A batch of two requests and one notification is answered with the two
    envelopes of the requests, in their order. *)
Example batch_of_three :
  answers
    (post_json 194 (VList [request "add" (VList [VInt 1; VInt 2]) (VInt 1);
                           notification "log_message" (VList [VStr "hi"]);
                           request "greet" (VList [VStr "Bob"]) (VInt 2)]))
    (fst started)
    (Dumps (VList [JSONRPCResponseManager.result_response (VInt 3) (VInt 1);
                   JSONRPCResponseManager.result_response (VStr "Hello, Bob!") (VInt 2)])).
Proof. reflexivity. Qed.

(** ** Every reply is well formed *)

Lemma error_response_envelope code message data id :
  is_response_envelope (JSONRPCResponseManager.error_response code message data id) = true
  /\ response_id (JSONRPCResponseManager.error_response code message data id) = Some id
  /\ error_code (JSONRPCResponseManager.error_response code message data id) = Some code.
Proof. destruct data; repeat split; reflexivity. Qed.

Lemma result_response_envelope result id :
  is_response_envelope (JSONRPCResponseManager.result_response result id) = true
  /\ response_id (JSONRPCResponseManager.result_response result id) = Some id.
Proof. split; reflexivity. Qed.

Lemma dispatch_envelope c w :
  is_response_envelope (snd (JSONRPCResponseManager.dispatch c w)) = true
  /\ response_id (snd (JSONRPCResponseManager.dispatch c w))
     = Some (default VNone (JSONRPCResponseManager.call_id c)).
Proof.
  unfold JSONRPCResponseManager.dispatch.
  destruct (dispatcher.lookup _ w) as [f |]; [| split; apply error_response_envelope].
  destruct (JSONRPCResponseManager.split_params _) as [[args kwargs] |];
    [| split; apply error_response_envelope].
  destruct (JSONRPCServer.call f args kwargs (files w)) as [[fs [r | e]] |]; cbn [snd].
  - split; apply result_response_envelope.
  - destruct (issubclass (exc_type e) TypeError); split; apply error_response_envelope.
  - split; apply error_response_envelope.
Qed.

Lemma handle_one_envelope v w r :
  snd (JSONRPCResponseManager.handle_one v w) = Some r -> is_response_envelope r = true.
Proof.
  unfold JSONRPCResponseManager.handle_one.
  destruct (JSONRPCResponseManager.validate v) as [c |].
  - pose proof (dispatch_envelope c w) as [He _].
    destruct (JSONRPCResponseManager.dispatch c w) as [w1 r1]. simpl in *.
    destruct (JSONRPCResponseManager.call_id c); [| discriminate].
    intros [= <-]. exact He.
  - simpl. intros [= <-]. apply error_response_envelope.
Qed.

Lemma handle_each_envelopes elems w :
  forallb is_response_envelope (snd (JSONRPCResponseManager.handle_each elems w)) = true.
Proof.
  revert w. induction elems as [| v rest IH]; intros w; [reflexivity |].
  simpl. pose proof (handle_one_envelope v w) as H1.
  destruct (JSONRPCResponseManager.handle_one v w) as [w1 r]. simpl in H1.
  specialize (IH w1). destruct (JSONRPCResponseManager.handle_each rest w1) as [w2 rs].
  simpl in *. destruct r as [x |]; [| exact IH].
  simpl. rewrite (H1 x eq_refl). exact IH.
Qed.

Lemma handle_well_formed t w :
  well_formed_body match snd (JSONRPCResponseManager.handle t w) with
                   | Some data => Dumps data
                   | None => Nothing
                   end = true.
Proof.
  unfold JSONRPCResponseManager.handle.
  destruct (JSONRPCResponseManager.loads t) as [v |]; [| reflexivity].
  assert (Hone : forall u, (forall l, u <> VList l) ->
            well_formed_body match snd (JSONRPCResponseManager.handle_one u w) with
                             | Some data => Dumps data
                             | None => Nothing
                             end = true).
  { intros u Hu. pose proof (handle_one_envelope u w) as H.
    destruct (snd (JSONRPCResponseManager.handle_one u w)) as [r |]; [| reflexivity].
    specialize (H r eq_refl). destruct r; try discriminate H. exact H. }
  destruct v as [| b | n | s | items | d]; try (apply Hone; discriminate).
  destruct items as [| x rest]; [reflexivity |].
  pose proof (handle_each_envelopes (x :: rest) w) as H.
  destruct (JSONRPCResponseManager.handle_each (x :: rest) w) as [w1 rs].
  simpl in H |- *. destruct rs; [reflexivity | exact H].
Qed.

(** [except Exception] catches every exception. *)
Lemma caught_by_Exception e : caught_by e [Exception] = true.
Proof. unfold caught_by. destruct (exc_type e); reflexivity. Qed.

Lemma internal_error_envelope e :
  is_response_envelope (RequestHandler.error_response e) = true
  /\ error_code (RequestHandler.error_response e) = Some (-32603)
  /\ response_id (RequestHandler.error_response e) = Some VNone.
Proof. repeat split; reflexivity. Qed.

(** ** The connection when [json.dumps] may raise *)

Section Connection.

Variable dumps : value -> option exception.

Hypothesis fallback_ok : forall e, dumps (RequestHandler.error_response e) = None.

(** An exception that ends the [try] statement is caught by one of the two
    [except] clauses, whose envelope is sent after a status line of its
    own. *)
Lemma except_clauses e (x : Wire.exchange) :
  (if caught_by e [ValueError; KeyError; UnicodeDecodeError]
   then Wire.except_clause dumps e x
   else if caught_by e [Exception] then Wire.except_clause dumps e x else x)
  = Wire.Exchange (Wire.state x)
      (Wire.wire x ++ [http_200; Body (Dumps (RequestHandler.error_response e))]) None.
Proof.
  rewrite (caught_by_Exception e). unfold Wire.except_clause. rewrite fallback_ok.
  destruct (caught_by e _); reflexivity.
Qed.

(** What is on the connection once the request text has been read. *)
Lemma wire_of_text req t w :
  request_text req = Return t ->
  Wire.do_POST dumps req w
  = match JSONRPCResponseManager.handle t w with
    | (w1, None) => Wire.Exchange w1 [http_200; Body Nothing] None
    | (w1, Some data) =>
        match dumps data with
        | None => Wire.Exchange w1 [http_200; Body (Dumps data)] None
        | Some e =>
            Wire.Exchange w1
              [http_200; http_200; Body (Dumps (RequestHandler.error_response e))] None
        end
    end.
Proof.
  unfold request_text, Wire.do_POST, Wire.do_POST_try. intros Ht.
  destruct (content_length req) as [n | e]; [| discriminate Ht]. rewrite Ht.
  destruct (JSONRPCResponseManager.handle t w) as [w1 [data |]]; [| reflexivity].
  destruct (dumps data) as [e |]; [| reflexivity].
  cbn [Wire.escaped]. rewrite except_clauses. reflexivity.
Qed.

Lemma wire_of_unread req e w :
  request_text req = Raise e ->
  Wire.do_POST dumps req w
  = Wire.Exchange w [http_200; Body (Dumps (RequestHandler.error_response e))] None.
Proof.
  unfold request_text, Wire.do_POST, Wire.do_POST_try. intros Ht.
  destruct (content_length req) as [n | e0].
  - rewrite Ht. cbn [Wire.escaped]. rewrite except_clauses. reflexivity.
  - injection Ht as ->. cbn [Wire.escaped]. rewrite except_clauses. reflexivity.
Qed.

(** [RequestHandler.do_POST] gives the reply that is on the connection
    whenever [json.dumps] returns for its body. *)
Lemma reply_on_the_connection req w r :
  snd (RequestHandler.do_POST req w) = Return r ->
  match body r with
  | Dumps v => dumps v = None
  | Nothing => True
  end ->
  Wire.do_POST dumps req w
  = Wire.Exchange (fst (RequestHandler.do_POST req w))
      [Head (status r) (headers r); Body (body r)] None.
Proof.
  destruct (request_text req) as [t | e] eqn:Ht.
  - rewrite (wire_of_text _ _ _ Ht).
    unfold request_text in Ht. unfold RequestHandler.do_POST, RequestHandler.do_POST_try.
    destruct (content_length req) as [n | e]; [| discriminate Ht]. rewrite Ht.
    destruct (JSONRPCResponseManager.handle t w) as [w1 [data |]]; cbn [fst snd].
    + intros [= <-]. cbn [body RequestHandler.reply]. intros ->. reflexivity.
    + intros [= <-] _. reflexivity.
  - rewrite (wire_of_unread _ _ _ Ht).
    unfold request_text in Ht. unfold RequestHandler.do_POST, RequestHandler.do_POST_try.
    destruct (content_length req) as [n | e0].
    + rewrite Ht. rewrite (caught_by_Exception e).
      destruct (caught_by e _); cbn [fst snd]; intros [= <-] _; reflexivity.
    + injection Ht as ->. rewrite (caught_by_Exception e).
      destruct (caught_by e _); cbn [fst snd]; intros [= <-] _; reflexivity.
Qed.

Lemma request_text_carries req v : carries req v -> request_text req = Return (Document v).
Proof. intros (n & Hn & Hr). unfold request_text. rewrite Hn. exact Hr. Qed.

(** A single call that validates. *)
Lemma wire_of_call req v m params id w :
  carries req v -> is_call v m params id -> m <> EmptyString ->
  Wire.do_POST dumps req w
  = match JSONRPCResponseManager.dispatch (JSONRPCResponseManager.Call m params id) w, id with
    | (w1, r), Some _ =>
        match dumps r with
        | None => Wire.Exchange w1 [http_200; Body (Dumps r)] None
        | Some e =>
            Wire.Exchange w1
              [http_200; http_200; Body (Dumps (RequestHandler.error_response e))] None
        end
    | (w1, r), None => Wire.Exchange w1 [http_200; Body Nothing] None
    end.
Proof.
  intros Hreq Hcall Hne. rewrite (wire_of_text _ _ _ (request_text_carries _ _ Hreq)).
  pose proof (validate_call _ _ _ _ Hcall Hne) as Hv.
  destruct Hcall as (d & -> & _). rewrite handle_dict.
  unfold JSONRPCResponseManager.handle_one. rewrite Hv.
  destruct (JSONRPCResponseManager.dispatch _ w) as [w1 r].
  cbn [JSONRPCResponseManager.call_id]. destruct id; reflexivity.
Qed.


End Connection.

(** C2, as amended.  Whatever the request (header missing or malformed,
    bytes that do not decode, text that is not JSON, any JSON value), no
    exception leaves [do_POST] and the first thing on the connection is the
    status line 200.  An exception raised before anything was sent becomes
    the envelope with code -32603 and a null [id], and the state of the
    server is untouched.  Otherwise the response of the manager is empty,
    one well-formed response envelope, or a non-empty array of well-formed
    response envelopes, and it is what follows the headers whenever
    [json.dumps] returns for it; when [json.dumps] raises, the headers are
    out already, and the [except] clause sends a status line and headers
    again and then its -32603 envelope. *)
Theorem do_POST_always_replies dumps req w :
  (forall e, dumps (RequestHandler.error_response e) = None) ->
  Wire.escaped (Wire.do_POST dumps req w) = None
  /\ hd_error (Wire.wire (Wire.do_POST dumps req w)) = Some http_200
  /\ match request_text req with
     | Raise e =>
         Wire.wire (Wire.do_POST dumps req w)
         = [http_200; Body (Dumps (RequestHandler.error_response e))]
         /\ Wire.state (Wire.do_POST dumps req w) = w
     | Return t =>
         match snd (JSONRPCResponseManager.handle t w) with
         | None => Wire.wire (Wire.do_POST dumps req w) = [http_200; Body Nothing]
         | Some data =>
             well_formed_body (Dumps data) = true
             /\ match dumps data with
                | None =>
                    Wire.wire (Wire.do_POST dumps req w) = [http_200; Body (Dumps data)]
                | Some e =>
                    Wire.wire (Wire.do_POST dumps req w)
                    = [http_200; http_200; Body (Dumps (RequestHandler.error_response e))]
                end
         end
     end
  /\ forall e,
       is_response_envelope (RequestHandler.error_response e) = true
       /\ error_code (RequestHandler.error_response e) = Some (-32603)
       /\ response_id (RequestHandler.error_response e) = Some VNone
       /\ error_data (RequestHandler.error_response e) = Some (VStr (exc_msg e)).
Proof.
  intros Hfb.
  destruct (request_text req) as [t | e] eqn:Ht.
  - rewrite (wire_of_text dumps Hfb _ _ _ Ht).
    pose proof (handle_well_formed t w) as Hwf.
    destruct (JSONRPCResponseManager.handle t w) as [w1 [data |]]; cbn [snd] in *.
    + destruct (dumps data) as [e |]; repeat split; try reflexivity; exact Hwf.
    + repeat split; reflexivity.
  - rewrite (wire_of_unread dumps Hfb _ _ _ Ht). repeat split; reflexivity.
Qed.

Lemma do_POST_always_replies_witness :
  Wire.escaped (Wire.do_POST json_dumps big_sum_request (fst started)) = None
  /\ hd_error (Wire.wire (Wire.do_POST json_dumps big_sum_request (fst started)))
     = Some http_200
  /\ match request_text big_sum_request with
     | Raise e =>
         Wire.wire (Wire.do_POST json_dumps big_sum_request (fst started))
         = [http_200; Body (Dumps (RequestHandler.error_response e))]
         /\ Wire.state (Wire.do_POST json_dumps big_sum_request (fst started)) = fst started
     | Return t =>
         match snd (JSONRPCResponseManager.handle t (fst started)) with
         | None =>
             Wire.wire (Wire.do_POST json_dumps big_sum_request (fst started))
             = [http_200; Body Nothing]
         | Some data =>
             well_formed_body (Dumps data) = true
             /\ match json_dumps data with
                | None =>
                    Wire.wire (Wire.do_POST json_dumps big_sum_request (fst started))
                    = [http_200; Body (Dumps data)]
                | Some e =>
                    Wire.wire (Wire.do_POST json_dumps big_sum_request (fst started))
                    = [http_200; http_200; Body (Dumps (RequestHandler.error_response e))]
                end
         end
     end
  /\ forall e,
       is_response_envelope (RequestHandler.error_response e) = true
       /\ error_code (RequestHandler.error_response e) = Some (-32603)
       /\ response_id (RequestHandler.error_response e) = Some VNone
       /\ error_data (RequestHandler.error_response e) = Some (VStr (exc_msg e)).
Proof.
  apply (do_POST_always_replies json_dumps big_sum_request (fst started)).
  intros e. reflexivity.
Defined.

(** The inputs that never reach a handler: an empty body and a truncated
    document are answered by the response manager with a Parse error, bytes
    that are not UTF-8 and a missing [Content-Length] by the [except]
    clauses of [do_POST]. *)
Example empty_body :
  answers (Request (Return 0) (fun _ => Return (Garbage EmptyString))) (fst started)
    (Dumps (JSONRPCResponseManager.error_response (-32700) "Parse error" None VNone)).
Proof. reflexivity. Qed.

Example truncated_json :
  answers (Request (Return 5) (fun _ => Return (Garbage "[1, 2"))) (fst started)
    (Dumps (JSONRPCResponseManager.error_response (-32700) "Parse error" None VNone)).
Proof. reflexivity. Qed.

Example not_utf8 :
  answers
    (Request (Return 1)
       (fun _ => Raise (Exc UnicodeDecodeError
          "'utf-8' codec can't decode byte 0xff in position 0: invalid start byte")))
    (fst started)
    (Dumps (VDict [("jsonrpc", VStr "2.0");
                   ("error",
                    VDict [("code", VInt (-32603));
                           ("message", VStr "Internal error");
                           ("data", VStr "'utf-8' codec can't decode byte 0xff in position 0: invalid start byte")]);
                   ("id", VNone)])).
Proof. reflexivity. Qed.

Example no_content_length :
  answers
    (Request
       (Raise (Exc TypeError
          "int() argument must be a string, a bytes-like object or a real number, not 'NoneType'"))
       (fun _ => Return (Garbage EmptyString)))
    (fst started)
    (Dumps (RequestHandler.error_response (Exc TypeError
       "int() argument must be a string, a bytes-like object or a real number, not 'NoneType'"))).
Proof. reflexivity. Qed.

Example unknown_method :
  answers (post_json 69 (request "does_not_exist" (VDict []) (VInt 3))) (fst started)
    (Dumps (JSONRPCResponseManager.error_response (-32601) "Method not found" None (VInt 3))).
Proof. reflexivity. Qed.

(** C2, as stated, fails on a batch: what follows the headers is a JSON
    array, which is neither empty nor a response envelope. *)
Lemma batch_body_is_an_array :
  sends json_dumps batch_of_one (fst started)
    [http_200;
     Body (Dumps (VList [JSONRPCResponseManager.result_response (VInt 8) (VInt 1)]))]
  /\ ~ (sends json_dumps batch_of_one (fst started) [http_200; Body Nothing]
        \/ exists v, sends json_dumps batch_of_one (fst started) [http_200; Body (Dumps v)]
                     /\ is_response_envelope v = true).
Proof.
  assert (E : Wire.wire (Wire.do_POST json_dumps batch_of_one (fst started))
              = [http_200;
                 Body (Dumps (VList [JSONRPCResponseManager.result_response (VInt 8) (VInt 1)]))])
    by reflexivity.
  split; [split; reflexivity |].
  unfold sends. rewrite E. intros [[H _] | (v & [H _] & Hv)]; [discriminate H |].
  injection H as <-. discriminate Hv.
Qed.

(** The sum of two integers of 4300 digits may have 4301: [json.dumps]
    refuses it after the headers have been sent, and what follows them is a
    second status line with its headers and the -32603 envelope. *)
Example big_sum_on_the_connection :
  sends json_dumps big_sum_request (fst started)
    [http_200; http_200; Body (Dumps (RequestHandler.error_response digit_limit_error))].
Proof. split; vm_compute; reflexivity. Qed.

(** ** Identifiers are echoed *)





(** The type of the [id] is kept: the string "1" and the number 1 come back
    as they were sent, also side by side in a batch. *)
Example id_string_and_number :
  sends json_dumps (post_json 64 (request "get_log" (VDict []) (VStr "1"))) (fst started)
    [http_200;
     Body (Dumps (JSONRPCResponseManager.result_response (VStr "Log is empty.") (VStr "1")))]
  /\ sends json_dumps (post_json 62 (request "get_log" (VDict []) (VInt 1))) (fst started)
       [http_200;
        Body (Dumps (JSONRPCResponseManager.result_response (VStr "Log is empty.") (VInt 1)))]
  /\ sends json_dumps
       (post_json 128 (VList [request "get_log" (VDict []) (VStr "1");
                              request "get_log" (VDict []) (VInt 1)]))
       (fst started)
       [http_200;
        Body (Dumps (VList
          [JSONRPCResponseManager.result_response (VStr "Log is empty.") (VStr "1");
           JSONRPCResponseManager.result_response (VStr "Log is empty.") (VInt 1)]))].
Proof. repeat split; reflexivity. Qed.


(** ** The log *)

Lemma append_nil_l (t : string) : EmptyString +:+ t = t.
Proof. reflexivity. Qed.

Lemma append_cons c (s t : string) : String c s +:+ t = String c (s +:+ t).
Proof. reflexivity. Qed.

Ltac push_append H :=
  repeat first [rewrite append_nil_l in H | rewrite append_cons in H].

Lemma occurs_app c s t : occurs c (s +:+ t) = occurs c s || occurs c t.
Proof.
  induction s as [| d s IH]; [reflexivity |].
  rewrite append_cons. cbn [occurs]. rewrite IH. apply orb_assoc.
Qed.

Lemma universal_newlines_id t :
  occurs CR t = false -> universal_newlines t = t.
Proof.
  induction t as [| c t IH]; cbn [occurs universal_newlines]; [reflexivity |].
  intros H. apply orb_false_elim in H as [Hc Ht].
  rewrite Ascii.eqb_sym, Hc. f_equal. apply IH, Ht.
Qed.

(** Text without a carriage return that is appended to a file is read back
    unchanged, whatever the file held before. *)
Lemma universal_newlines_app old t :
  occurs CR t = false ->
  exists pre, universal_newlines (old +:+ t) = pre +:+ t.
Proof.
  intros Ht.
  enough (H : (exists pre, universal_newlines (old +:+ t) = pre +:+ t)
              /\ forall c, exists pre, universal_newlines (String c old +:+ t) = pre +:+ t)
    by apply H.
  induction old as [| a old [IH0 IH1]].
  - split.
    + exists EmptyString. rewrite !append_nil_l. apply universal_newlines_id, Ht.
    + intros c. rewrite append_cons, append_nil_l. cbn [universal_newlines].
      destruct (Ascii.eqb c CR) eqn:Ec.
      * destruct t as [| d t'].
        -- exists (String LF EmptyString). reflexivity.
        -- pose proof (universal_newlines_id _ Ht) as Hid.
           cbn [occurs] in Ht. apply orb_false_elim in Ht as [_ Ht'].
           destruct (Ascii.eqb d LF) eqn:Ed.
           ++ apply Ascii.eqb_eq in Ed. subst d. exists EmptyString.
              rewrite append_nil_l. f_equal. apply universal_newlines_id, Ht'.
           ++ exists (String LF EmptyString). rewrite Hid. reflexivity.
      * exists (String c EmptyString). rewrite append_cons, append_nil_l. f_equal.
        apply universal_newlines_id, Ht.
  - split; [apply IH1 |].
    intros c. rewrite !append_cons. cbn [universal_newlines].
    destruct (Ascii.eqb c CR).
    + destruct (Ascii.eqb a LF).
      * destruct IH0 as [pre Hpre]. exists (String LF pre). rewrite Hpre. reflexivity.
      * destruct (IH1 a) as [pre Hpre]. exists (String LF pre).
        rewrite append_cons in Hpre. cbn [universal_newlines] in Hpre.
        rewrite Hpre. reflexivity.
    + destruct (IH1 a) as [pre Hpre]. exists (String c pre).
      rewrite append_cons in Hpre. cbn [universal_newlines] in Hpre.
      rewrite Hpre. reflexivity.
Qed.

Lemma read_after_write path text fs :
  read_text path (write_append path text fs)
  = Return (universal_newlines (default EmptyString (fs !! path) +:+ text)).
Proof. unfold read_text, write_append. rewrite lookup_insert_eq. reflexivity. Qed.

Lemma clear_log_leaves_empty_file self fs :
  fst (JSONRPCServer.clear_log self fs) !! log_file self = Some EmptyString.
Proof.
  unfold JSONRPCServer.clear_log, write_append, open_truncate. cbn [fst].
  rewrite !lookup_insert_eq. reflexivity.
Qed.

(** C4, as amended.  [clear_log()] leaves an empty file behind, so the
    [get_log()] that follows returns the empty string; the sentinel is what
    [get_log()] returns when there is no file. *)
Theorem get_log_after_clear_log self fs :
  snd (JSONRPCServer.get_log self (fst (JSONRPCServer.clear_log self fs)))
  = Return (VStr EmptyString)
  /\ snd (JSONRPCServer.get_log self (delete (log_file self) fs))
     = Return (VStr "Log is empty.")
  /\ fst (JSONRPCServer.get_log self (delete (log_file self) fs)) !! log_file self = None.
Proof.
  unfold JSONRPCServer.get_log, read_text.
  rewrite clear_log_leaves_empty_file, lookup_delete_eq.
  split; [reflexivity |]. split; [reflexivity |].
  cbn. apply lookup_delete_eq.
Qed.

(** C4, as stated, fails: after [clear_log()], [get_log()] does not return
    "Log is empty.". *)
Lemma clear_log_does_not_bring_back_the_sentinel :
  snd (JSONRPCServer.get_log (snd started)
         (fst (JSONRPCServer.clear_log (snd started) ∅)))
  <> Return (VStr "Log is empty.").
Proof.
  unfold JSONRPCServer.get_log, read_text.
  rewrite clear_log_leaves_empty_file. discriminate.
Qed.

(** C5, as amended.  A message without a carriage return is found in what
    [get_log()] returns after [log_message(m)], whatever the log held
    before.  (The strings of the model are those that the UTF-8 log file
    can hold.) *)
Theorem get_log_after_log_message self fs m :
  occurs CR m = false ->
  exists out,
    snd (JSONRPCServer.get_log self (fst (JSONRPCServer.log_message self (VStr m) fs)))
    = Return (VStr out)
    /\ contains out m.
Proof.
  intros Hm. unfold JSONRPCServer.get_log, JSONRPCServer.log_message.
  cbn [py_add fst]. rewrite read_after_write.
  destruct (universal_newlines_app
              (default EmptyString (open_append (log_file self) fs !! log_file self))
              (m +:+ newline)) as [pre Hpre].
  { rewrite occurs_app, Hm. reflexivity. }
  rewrite Hpre. exists (pre +:+ (m +:+ newline)). split; [reflexivity |].
  exists pre, newline. reflexivity.
Qed.

Lemma get_log_after_log_message_witness :
  exists out,
    snd (JSONRPCServer.get_log (snd started)
           (fst (JSONRPCServer.log_message (snd started) (VStr "Integration test log") ∅)))
    = Return (VStr out)
    /\ contains out "Integration test log".
Proof. apply (get_log_after_log_message (snd started) ∅ "Integration test log"). reflexivity. Defined.

(** C5, as stated, fails on a message with a carriage return: the log is
    read back in text mode, where the carriage return has become a line
    feed. *)
Lemma get_log_loses_carriage_return :
  exists out,
    snd (JSONRPCServer.get_log (snd started)
           (fst (JSONRPCServer.log_message (snd started) (VStr message_with_cr) ∅)))
    = Return (VStr out)
    /\ ~ contains out message_with_cr.
Proof.
  exists (String "a" (String LF (String "b" (String LF EmptyString)))).
  split; [reflexivity |].
  intros (pre & post & H). unfold message_with_cr in H.
  do 5 (destruct pre as [| ? pre]; [push_append H; discriminate H |]).
  push_append H. discriminate H.
Qed.

(** ** Calls to the registered methods *)

Lemma call_a_b f params a b :
  passes_a_b params a b ->
  JSONRPCServer.signature (im_func f) = [("a", None); ("b", None)] ->
  exists args kwargs,
    JSONRPCResponseManager.split_params (Some params) = Some (args, kwargs)
    /\ JSONRPCServer.bind (JSONRPCServer.signature (im_func f)) args kwargs = Some [a; b].
Proof.
  intros [-> | [-> | ->]] ->.
  - exists [a; b], []. split; reflexivity.
  - exists [], [("a", a); ("b", b)]. split; reflexivity.
  - exists [], [("b", b); ("a", a)]. split; reflexivity.
Qed.

(** What [dispatch] answers once the method is found, the params have a
    shape and the call binds. *)
Lemma dispatch_outcome m params id f args kwargs fs o w :
  dispatcher.lookup m w = Some f ->
  JSONRPCResponseManager.split_params params = Some (args, kwargs) ->
  JSONRPCServer.call f args kwargs (files w) = Some (fs, o) ->
  JSONRPCResponseManager.dispatch (JSONRPCResponseManager.Call m params id) w
  = (JSONRPCResponseManager.with_files fs w,
     match o with
     | Return r => JSONRPCResponseManager.result_response r (default VNone id)
     | Raise e =>
         if issubclass (exc_type e) TypeError
         then JSONRPCResponseManager.error_response (-32602) "Invalid params"
                (Some (VStr (exc_msg e))) (default VNone id)
         else JSONRPCResponseManager.error_response (-32000) "Server error"
                (Some (VStr (exc_msg e))) (default VNone id)
     end).
Proof.
  intros Hlook Hsplit Hcall. unfold JSONRPCResponseManager.dispatch.
  cbn [JSONRPCResponseManager.call_method JSONRPCResponseManager.call_params
       JSONRPCResponseManager.call_id].
  rewrite Hlook, Hsplit, Hcall. destruct o; reflexivity.
Qed.

(** C6, as amended.  A [strict_add] request in which an argument is neither
    an integer nor a boolean is answered with the Invalid Params error,
    code -32602, and no result. *)
Theorem strict_add_rejects_non_int req v params id a b self w :
  carries req v ->
  is_call v "strict_add" (Some params) (Some id) ->
  passes_a_b params a b ->
  dispatcher.lookup "strict_add" w = Some (Bound self M_strict_add) ->
  isinstance_int a && isinstance_int b = false ->
  exists resp,
    answers req w (Dumps resp)
    /\ error_code resp = Some (-32602)
    /\ result_of resp = None
    /\ response_id resp = Some id.
Proof.
  intros Hreq Hcall Hshape Hlook Hty. unfold answers.
  rewrite (do_POST_call _ _ _ _ _ _ Hreq Hcall ltac:(discriminate)).
  destruct (call_a_b (Bound self M_strict_add) params a b Hshape eq_refl)
    as (args & kwargs & Hsplit & Hbind).
  assert (Hc : JSONRPCServer.call (Bound self M_strict_add) args kwargs (files w)
               = Some (files w, Raise (Exc TypeError "Both parameters must be integers"))).
  { unfold JSONRPCServer.call. rewrite Hbind. cbn [im_func im_self].
    unfold JSONRPCServer.strict_add.
    replace (negb (isinstance_int a) || negb (isinstance_int b)) with true
      by (destruct (isinstance_int a), (isinstance_int b); try reflexivity; discriminate Hty).
    reflexivity. }
  rewrite (dispatch_outcome _ _ _ _ _ _ _ _ _ Hlook Hsplit Hc).
  eexists. repeat split.
Qed.

Lemma strict_add_rejects_non_int_witness :
  exists resp,
    answers
      (post_json 81 (request "strict_add" (VDict [("a", VStr "5"); ("b", VInt 3)]) (VInt 1)))
      (fst started) (Dumps resp)
    /\ error_code resp = Some (-32602)
    /\ result_of resp = None
    /\ response_id resp = Some (VInt 1).
Proof.
  apply (strict_add_rejects_non_int _
           (request "strict_add" (VDict [("a", VStr "5"); ("b", VInt 3)]) (VInt 1))
           (VDict [("a", VStr "5"); ("b", VInt 3)]) (VInt 1) (VStr "5") (VInt 3) (snd started)).
  - eexists. split; reflexivity.
  - eexists. repeat split; reflexivity.
  - right. left. reflexivity.
  - reflexivity.
  - reflexivity.
Defined.

(** C6, as stated, fails on a boolean: [true] is not an integer at the JSON
    level, and the request [strict_add(a=true, b=3)] is answered with a
    result, not with error -32602. *)
Lemma strict_add_true_is_not_rejected :
  json_integer (VBool true) = false
  /\ ~ exists resp,
         answers
           (post_json 82 (request "strict_add" (VDict [("a", VBool true); ("b", VInt 3)]) (VInt 1)))
           (fst started) (Dumps resp)
         /\ error_code resp = Some (-32602).
Proof.
  split; [reflexivity |].
  assert (E : answers
                (post_json 82 (request "strict_add" (VDict [("a", VBool true); ("b", VInt 3)]) (VInt 1)))
                (fst started)
                (Dumps (JSONRPCResponseManager.result_response (VInt 4) (VInt 1))))
    by reflexivity.
  unfold answers in *. rewrite E. intros (resp & H & Hc).
  injection H as <-. discriminate Hc.
Qed.







Example cause_internal_error_number :
  JSONRPCServer.cause_internal_error (snd started) (VInt 7)
  = Return (VStr "No error triggered. Received: 7").
Proof. reflexivity. Qed.

(** The request of the test suite, as it is answered on the connection. *)
Example cause_internal_error_request :
  sends json_dumps
    (post_json 93 (request "cause_internal_error" (VDict [("trigger", VStr "error")]) (VInt 4)))
    (fst started)
    [http_200;
     Body (Dumps (JSONRPCResponseManager.error_response (-32000) "Server error"
                    (Some (VStr "This is a deliberate internal error for demonstration"))
                    (VInt 4)))].
Proof. split; reflexivity. Qed.

(** An integer of more than 4300 digits cannot be put into the
    confirmation string. *)
Example cause_internal_error_oversized :
  JSONRPCServer.cause_internal_error (snd started) (VInt str_digits_bound)
  = Raise digit_limit_error.
Proof. vm_compute. reflexivity. Qed.

(** C8.  The request [add(a=5, b=3)] with [id] 1 is answered with the
    status line 200, the headers and exactly the envelope of "jsonrpc"
    "2.0", "result" 8 and "id" 1; on integers [add] returns the sum. *)
Theorem add_request_yields_sum dumps req v self w :
  (forall e, dumps (RequestHandler.error_response e) = None) ->
  dumps (VDict [("jsonrpc", VStr "2.0"); ("result", VInt 8); ("id", VInt 1)]) = None ->
  dispatcher.lookup "add" w = Some (Bound self M_add) ->
  carries req v ->
  is_call v "add" (Some (VDict [("a", VInt 5); ("b", VInt 3)])) (Some (VInt 1)) ->
  sends dumps req w
    [Head 200 [("Content-type", "application/json")];
     Body (Dumps (VDict [("jsonrpc", VStr "2.0"); ("result", VInt 8); ("id", VInt 1)]))]
  /\ Wire.state (Wire.do_POST dumps req w) = w
  /\ forall a b : Z, JSONRPCServer.add self (VInt a) (VInt b) = Return (VInt (a + b)).
Proof.
  intros Hfb Hd Hlook Hreq Hcall. split; [| split; [| reflexivity]].
  - unfold sends. rewrite (wire_of_call dumps Hfb _ _ _ _ _ _ Hreq Hcall ltac:(discriminate)).
    rewrite (dispatch_outcome "add" (Some (VDict [("a", VInt 5); ("b", VInt 3)]))
               (Some (VInt 1)) _ [] [("a", VInt 5); ("b", VInt 3)] (files w)
               (Return (VInt 8)) w Hlook eq_refl eq_refl).
    cbn [default from_option id]. unfold JSONRPCResponseManager.result_response.
    rewrite Hd. split; reflexivity.
  - rewrite (wire_of_call dumps Hfb _ _ _ _ _ _ Hreq Hcall ltac:(discriminate)).
    rewrite (dispatch_outcome "add" (Some (VDict [("a", VInt 5); ("b", VInt 3)]))
               (Some (VInt 1)) _ [] [("a", VInt 5); ("b", VInt 3)] (files w)
               (Return (VInt 8)) w Hlook eq_refl eq_refl).
    cbn [default from_option id]. unfold JSONRPCResponseManager.result_response.
    rewrite Hd. destruct w; reflexivity.
Qed.

Lemma add_request_yields_sum_witness :
  sends json_dumps
    (post_json 72 (request "add" (VDict [("a", VInt 5); ("b", VInt 3)]) (VInt 1)))
    (fst started)
    [Head 200 [("Content-type", "application/json")];
     Body (Dumps (VDict [("jsonrpc", VStr "2.0"); ("result", VInt 8); ("id", VInt 1)]))]
  /\ Wire.state (Wire.do_POST json_dumps
                   (post_json 72 (request "add" (VDict [("a", VInt 5); ("b", VInt 3)]) (VInt 1)))
                   (fst started))
     = fst started
  /\ forall a b : Z, JSONRPCServer.add (snd started) (VInt a) (VInt b) = Return (VInt (a + b)).
Proof.
  apply (add_request_yields_sum json_dumps _
           (request "add" (VDict [("a", VInt 5); ("b", VInt 3)]) (VInt 1))).
  - intros e. reflexivity.
  - reflexivity.
  - reflexivity.
  - eexists. split; reflexivity.
  - eexists. repeat split; reflexivity.
Defined.


(** ** The registry after construction *)

Lemma setup_methods_registry self w :
  method_map (JSONRPCServer._setup_methods self w) = registry_of self.
Proof.
  unfold JSONRPCServer._setup_methods, dispatcher.add_method, dispatcher.clear, registry_of.
  cbn [method_map list_to_map foldr curry fst snd].
  apply map_eq. intros name.
  repeat (rewrite lookup_insert; case_decide; [subst name; vm_compute; reflexivity |]).
  rewrite !lookup_insert_ne by assumption. reflexivity.
Qed.

Lemma registry_of_dom self : dom (registry_of self) = method_names.
Proof.
  unfold registry_of, method_names.
  cbn [list_to_map foldr curry fst snd list_to_set].
  rewrite !dom_insert_L, dom_empty_L. reflexivity.
Qed.

Lemma registry_of_self self :
  map_Forall (fun _ f => im_self f = self) (registry_of self).
Proof.
  unfold registry_of. cbn [list_to_map foldr curry fst snd].
  repeat (apply map_Forall_insert_2; [reflexivity |]).
  apply map_Forall_empty.
Qed.

(** The identity of a new object is fresh, and construction moves the
    supply on. *)
Lemma init_oid host port file w :
  oid (snd (JSONRPCServer.__init__ host port file w)) = next_oid w
  /\ next_oid (fst (JSONRPCServer.__init__ host port file w)) = S (next_oid w).
Proof. split; reflexivity. Qed.

(** C10.  Constructing a server clears the process-wide registry and binds
    exactly the eight method names to the new object.  After a second
    construction the registry holds the eight names bound to the second
    object, and no binding to the first object is left, whatever was
    registered before. *)
Theorem construction_rebinds_registry host1 port1 file1 host2 port2 file2 w w1 s1 w2 s2 :
  JSONRPCServer.__init__ host1 port1 file1 w = (w1, s1) ->
  JSONRPCServer.__init__ host2 port2 file2 w1 = (w2, s2) ->
  method_map w1 = registry_of s1
  /\ method_map w2 = registry_of s2
  /\ dom (method_map w2) = method_names
  /\ s1 <> s2
  /\ map_Forall (fun _ f => im_self f = s2 /\ im_self f <> s1) (method_map w2).
Proof.
  intros H1 H2.
  pose proof (init_oid host1 port1 file1 w) as [Ho1 Hn1].
  pose proof (init_oid host2 port2 file2 w1) as [Ho2 _].
  rewrite H1 in Ho1, Hn1. rewrite H2 in Ho2. cbn [fst snd] in *.
  assert (Hne : s1 <> s2) by (intros ->; lia).
  injection H1 as <- <-. injection H2 as <- <-.
  rewrite !setup_methods_registry.
  split; [reflexivity |]. split; [reflexivity |].
  split; [apply registry_of_dom |]. split; [exact Hne |].
  intros name f Hf.
  pose proof (registry_of_self _ name f Hf) as Hs. cbn beta in Hs.
  split; [exact Hs | congruence].
Qed.

Lemma construction_rebinds_registry_witness :
  method_map (fst started) = registry_of (snd started)
  /\ method_map (fst (JSONRPCServer.__init__ "0.0.0.0" 9000 "custom.log" (fst started)))
     = registry_of (snd (JSONRPCServer.__init__ "0.0.0.0" 9000 "custom.log" (fst started)))
  /\ dom (method_map (fst (JSONRPCServer.__init__ "0.0.0.0" 9000 "custom.log" (fst started))))
     = method_names
  /\ snd started <> snd (JSONRPCServer.__init__ "0.0.0.0" 9000 "custom.log" (fst started))
  /\ map_Forall
       (fun _ f =>
          im_self f = snd (JSONRPCServer.__init__ "0.0.0.0" 9000 "custom.log" (fst started))
          /\ im_self f <> snd started)
       (method_map (fst (JSONRPCServer.__init__ "0.0.0.0" 9000 "custom.log" (fst started)))).
Proof.
  apply (construction_rebinds_registry "localhost" 4000 "server_log.txt"
           "0.0.0.0" 9000 "custom.log" (World ∅ ∅ 0)).
  - reflexivity.
  - reflexivity.
Defined.

(** After the second construction a [log_message] notification writes to
    the log file of the second server. *)
Example second_server_logs :
  files (fst (RequestHandler.do_POST
                (post_json 61 (notification "log_message" (VList [VStr "hi"])))
                (fst (JSONRPCServer.__init__ "0.0.0.0" 9000 "custom.log" (fst started)))))
  = {[ "custom.log" := String "h" (String "i" newline) ]}.
Proof. reflexivity. Qed.

(** * Further properties of the server methods *)

(** ** The log as a sequence of lines *)

Lemma log_message_str self m fs :
  JSONRPCServer.log_message self (VStr m) fs
  = (<[log_file self := log_contents self fs +:+ (m +:+ newline)]> fs, Return VNone).
Proof.
  unfold JSONRPCServer.log_message, write_append, open_append, log_contents.
  cbn [py_add]. destruct (fs !! log_file self) as [old |] eqn:E.
  - rewrite E. reflexivity.
  - rewrite lookup_insert_eq, insert_insert_eq. reflexivity.
Qed.

Lemma append_assoc (s t u : string) : (s +:+ t) +:+ u = s +:+ (t +:+ u).
Proof.
  induction s as [| c s IH]; [reflexivity |].
  rewrite !append_cons, IH. reflexivity.
Qed.

Lemma append_nil_r (s : string) : s +:+ EmptyString = s.
Proof.
  induction s as [| c s IH]; [reflexivity |].
  rewrite append_cons, IH. reflexivity.
Qed.

Lemma log_all_contents self ms fs :
  log_contents self (log_all self (map VStr ms) fs)
  = log_contents self fs +:+ concat_lines ms
  /\ (ms <> [] -> is_Some (log_all self (map VStr ms) fs !! log_file self)).
Proof.
  revert fs. induction ms as [| m rest IH]; intros fs.
  - cbn [map log_all concat_lines]. rewrite append_nil_r. split; [reflexivity | congruence].
  - cbn [map log_all concat_lines]. rewrite log_message_str. cbn [fst].
    destruct (IH (<[log_file self := log_contents self fs +:+ (m +:+ newline)]> fs)) as [Hc Hs].
    split.
    + rewrite Hc. unfold log_contents at 1. rewrite lookup_insert_eq.
      cbn [default from_option id]. rewrite !append_assoc. reflexivity.
    + intros _. destruct rest as [| m' rest'].
      * cbn [map log_all]. rewrite lookup_insert_eq. eauto.
      * apply Hs. discriminate.
Qed.

Lemma concat_lines_no_cr ms :
  Forall (fun m => occurs CR m = false) ms -> occurs CR (concat_lines ms) = false.
Proof.
  induction 1 as [| m rest Hm _ IH]; [reflexivity |].
  cbn [concat_lines]. rewrite !occurs_app, Hm, IH. reflexivity.
Qed.

(** X1.  Messages without a carriage return, made of characters that the
    UTF-8 log file can hold, that are logged one after the other are read
    back as the lines of the log, in the order of the calls: after
    [clear_log] the log reads exactly these lines, and on any log it ends
    with them. *)
Theorem get_log_after_messages self fs ms :
  Forall (fun m => occurs CR m = false) ms ->
  ms <> [] ->
  snd (JSONRPCServer.get_log self
         (log_all self (map VStr ms) (fst (JSONRPCServer.clear_log self fs))))
  = Return (VStr (concat_lines ms))
  /\ exists before,
       snd (JSONRPCServer.get_log self (log_all self (map VStr ms) fs))
       = Return (VStr (before +:+ concat_lines ms)).
Proof.
  intros Hms Hne. pose proof (concat_lines_no_cr ms Hms) as Hcr. split.
  - pose proof (log_all_contents self ms (fst (JSONRPCServer.clear_log self fs))) as [Hc Hs].
    destruct (Hs Hne) as [contents E].
    unfold log_contents in Hc. rewrite clear_log_leaves_empty_file, E in Hc.
    cbn [default from_option id] in Hc. rewrite append_nil_l in Hc. subst contents.
    unfold JSONRPCServer.get_log, read_text. rewrite E, (universal_newlines_id _ Hcr).
    reflexivity.
  - pose proof (log_all_contents self ms fs) as [Hc Hs].
    destruct (Hs Hne) as [contents E]. unfold log_contents at 1 in Hc. rewrite E in Hc.
    cbn [default from_option id] in Hc. subst contents.
    destruct (universal_newlines_app (log_contents self fs) (concat_lines ms) Hcr) as [pre Hpre].
    exists pre. unfold JSONRPCServer.get_log, read_text. rewrite E, Hpre. reflexivity.
Qed.

Lemma get_log_after_messages_witness :
  snd (JSONRPCServer.get_log (snd started)
         (log_all (snd started) (map VStr ["first"; "second"])
            (fst (JSONRPCServer.clear_log (snd started) ∅))))
  = Return (VStr (concat_lines ["first"; "second"]))
  /\ exists before,
       snd (JSONRPCServer.get_log (snd started)
              (log_all (snd started) (map VStr ["first"; "second"]) ∅))
       = Return (VStr (before +:+ concat_lines ["first"; "second"])).
Proof.
  apply (get_log_after_messages (snd started) ∅ ["first"; "second"]).
  - repeat constructor.
  - discriminate.
Defined.

(** ** Failed and foreign writes *)

Lemma py_add_non_str_newline message :
  is_str message = false ->
  exists e, py_add message (VStr newline) = Raise e /\ exc_type e = TypeError.
Proof.
  intros H. destruct message as [| [|] | n | s | l | d]; try discriminate H;
    cbn; eexists; split; reflexivity.
Qed.

(** X2.  [log_message] with a message that is not a string raises
    [TypeError] and writes nothing, but the log file has been opened by
    then: it keeps its contents, and a log file that did not exist is now
    empty, so that [get_log] returns what the log held (the empty string
    for a new file) and not the sentinel. *)
Theorem log_message_rejects_non_str self message fs :
  is_str message = false ->
  exists e,
    snd (JSONRPCServer.log_message self message fs) = Raise e
    /\ exc_type e = TypeError
    /\ fst (JSONRPCServer.log_message self message fs) !! log_file self
       = Some (log_contents self fs)
    /\ snd (JSONRPCServer.get_log self (fst (JSONRPCServer.log_message self message fs)))
       = Return (VStr (universal_newlines (log_contents self fs))).
Proof.
  intros H. destruct (py_add_non_str_newline message H) as (e & He & Hty).
  assert (Hfs : fst (JSONRPCServer.log_message self message fs) !! log_file self
                = Some (log_contents self fs)).
  { unfold JSONRPCServer.log_message. rewrite He. cbn [fst].
    unfold open_append, log_contents. destruct (fs !! log_file self) as [old |] eqn:E.
    - rewrite E. reflexivity.
    - rewrite lookup_insert_eq. reflexivity. }
  exists e. repeat split.
  - unfold JSONRPCServer.log_message. rewrite He. reflexivity.
  - exact Hty.
  - exact Hfs.
  - unfold JSONRPCServer.get_log, read_text. rewrite Hfs. reflexivity.
Qed.

Lemma log_message_rejects_non_str_witness :
  exists e,
    snd (JSONRPCServer.log_message (snd started) (VInt 5) ∅) = Raise e
    /\ exc_type e = TypeError
    /\ fst (JSONRPCServer.log_message (snd started) (VInt 5) ∅) !! log_file (snd started)
       = Some (log_contents (snd started) ∅)
    /\ snd (JSONRPCServer.get_log (snd started)
              (fst (JSONRPCServer.log_message (snd started) (VInt 5) ∅)))
       = Return (VStr (universal_newlines (log_contents (snd started) ∅))).
Proof. apply (log_message_rejects_non_str (snd started) (VInt 5) ∅). reflexivity. Defined.

Lemma log_message_frame self message fs path :
  path <> log_file self ->
  fst (JSONRPCServer.log_message self message fs) !! path = fs !! path.
Proof.
  intros Hne. unfold JSONRPCServer.log_message, write_append, open_append.
  assert (Hopen : match fs !! log_file self with
                  | Some _ => fs
                  | None => <[log_file self := EmptyString]> fs
                  end !! path = fs !! path).
  { destruct (fs !! log_file self); [reflexivity |]. apply lookup_insert_ne. congruence. }
  destruct (py_add message (VStr newline)) as [[| b | n | line | l | d] | e]; cbn [fst];
    try exact Hopen.
  rewrite lookup_insert_ne by congruence. exact Hopen.
Qed.

Lemma clear_log_frame self fs path :
  path <> log_file self ->
  fst (JSONRPCServer.clear_log self fs) !! path = fs !! path.
Proof.
  intros Hne. unfold JSONRPCServer.clear_log, write_append, open_truncate. cbn [fst].
  rewrite !lookup_insert_ne by congruence. reflexivity.
Qed.

Lemma get_log_reads self fs fs' :
  fs' !! log_file self = fs !! log_file self ->
  snd (JSONRPCServer.get_log self fs') = snd (JSONRPCServer.get_log self fs).
Proof.
  intros H. unfold JSONRPCServer.get_log, read_text. rewrite H.
  destruct (fs !! log_file self); reflexivity.
Qed.

(** X3.  The three log methods touch no file but the log file of their
    server: every other path keeps its state, [get_log] changes nothing at
    all, and what a server with another log file reads is not affected by
    [log_message] and [clear_log] of this one. *)
Theorem log_methods_touch_only_their_log self other message fs path :
  path <> log_file self ->
  log_file other <> log_file self ->
  fst (JSONRPCServer.log_message self message fs) !! path = fs !! path
  /\ fst (JSONRPCServer.clear_log self fs) !! path = fs !! path
  /\ fst (JSONRPCServer.get_log self fs) = fs
  /\ snd (JSONRPCServer.get_log other (fst (JSONRPCServer.log_message self message fs)))
     = snd (JSONRPCServer.get_log other fs)
  /\ snd (JSONRPCServer.get_log other (fst (JSONRPCServer.clear_log self fs)))
     = snd (JSONRPCServer.get_log other fs).
Proof.
  intros Hpath Hother. split; [apply log_message_frame, Hpath |].
  split; [apply clear_log_frame, Hpath |]. split.
  - unfold JSONRPCServer.get_log. destruct (read_text (log_file self) fs) as [c | e];
      [reflexivity |]. destruct (issubclass (exc_type e) FileNotFoundError); reflexivity.
  - split; apply get_log_reads; [apply log_message_frame | apply clear_log_frame]; exact Hother.
Qed.

Lemma log_methods_touch_only_their_log_witness :
  fst (JSONRPCServer.log_message (snd started) (VStr "hi") ∅) !! "custom.log"
  = (∅ : gmap string string) !! "custom.log"
  /\ fst (JSONRPCServer.clear_log (snd started) ∅) !! "custom.log"
     = (∅ : gmap string string) !! "custom.log"
  /\ fst (JSONRPCServer.get_log (snd started) ∅) = ∅
  /\ snd (JSONRPCServer.get_log (Server 1 "0.0.0.0" 9000 "custom.log")
            (fst (JSONRPCServer.log_message (snd started) (VStr "hi") ∅)))
     = snd (JSONRPCServer.get_log (Server 1 "0.0.0.0" 9000 "custom.log") ∅)
  /\ snd (JSONRPCServer.get_log (Server 1 "0.0.0.0" 9000 "custom.log")
            (fst (JSONRPCServer.clear_log (snd started) ∅)))
     = snd (JSONRPCServer.get_log (Server 1 "0.0.0.0" 9000 "custom.log") ∅).
Proof.
  apply (log_methods_touch_only_their_log (snd started)
           (Server 1 "0.0.0.0" 9000 "custom.log") (VStr "hi") ∅ "custom.log").
  - discriminate.
  - discriminate.
Defined.

Lemma log_all_frame self messages fs path :
  path <> log_file self ->
  log_all self messages fs !! path = fs !! path.
Proof.
  intros Hne. revert fs. induction messages as [| m rest IH]; intros fs; [reflexivity |].
  cbn [log_all]. rewrite IH. apply log_message_frame, Hne.
Qed.

(** X4.  [clear_log] forgets the history of the log: whatever was logged
    before, with calls that returned or raised, the files after [clear_log]
    are those of a [clear_log] without that history; in particular
    [clear_log] twice is [clear_log] once. *)
Theorem clear_log_forgets_history self messages fs :
  fst (JSONRPCServer.clear_log self (log_all self messages fs))
  = fst (JSONRPCServer.clear_log self fs)
  /\ fst (JSONRPCServer.clear_log self (fst (JSONRPCServer.clear_log self fs)))
     = fst (JSONRPCServer.clear_log self fs).
Proof.
  split; apply map_eq; intros path; destruct (decide (path = log_file self)) as [-> | Hne].
  - rewrite !clear_log_leaves_empty_file. reflexivity.
  - rewrite !clear_log_frame by exact Hne. apply log_all_frame, Hne.
  - rewrite !clear_log_leaves_empty_file. reflexivity.
  - rewrite !clear_log_frame by exact Hne. reflexivity.
Qed.

Lemma universal_newlines_no_cr s : occurs CR (universal_newlines s) = false.
Proof.
  enough (H : occurs CR (universal_newlines s) = false
              /\ forall c, occurs CR (universal_newlines (String c s)) = false) by apply H.
  induction s as [| a s [IH0 IH1]].
  - split; [reflexivity |]. intros c. cbn [universal_newlines].
    destruct (Ascii.eqb c CR) eqn:Ec; [reflexivity |].
    cbn [occurs]. rewrite Ascii.eqb_sym, Ec. reflexivity.
  - split; [apply IH1 |]. intros c. cbn [universal_newlines].
    destruct (Ascii.eqb c CR) eqn:Ec.
    + destruct (Ascii.eqb a LF).
      * cbn [occurs]. rewrite IH0. reflexivity.
      * cbn [occurs]. specialize (IH1 a). cbn [universal_newlines] in IH1.
        rewrite IH1. reflexivity.
    + cbn [occurs]. rewrite Ascii.eqb_sym, Ec. specialize (IH1 a).
      cbn [universal_newlines] in IH1. rewrite IH1. reflexivity.
Qed.

Lemma get_log_no_cr self fs :
  exists out,
    snd (JSONRPCServer.get_log self fs) = Return (VStr out)
    /\ occurs CR out = false.
Proof.
  unfold JSONRPCServer.get_log, read_text. destruct (fs !! log_file self) as [contents |].
  - exists (universal_newlines contents). split; [reflexivity | apply universal_newlines_no_cr].
  - eexists. split; reflexivity.
Qed.

(** X5.  A log that the server has written itself, from a cleared or a
    missing log file on and with whatever calls of [log_message], returning
    or raising, is read back by [get_log] without an exception, as a string
    that has no carriage return: its lines end with a line feed only.  (The
    server writes UTF-8; a log file with other bytes, which makes [get_log]
    raise [UnicodeDecodeError], is not of its making.) *)
Theorem get_log_returns_text_without_cr self fs messages :
  (exists out,
      snd (JSONRPCServer.get_log self
             (log_all self messages (fst (JSONRPCServer.clear_log self fs))))
      = Return (VStr out)
      /\ occurs CR out = false)
  /\ (exists out,
        snd (JSONRPCServer.get_log self
               (log_all self messages (delete (log_file self) fs)))
        = Return (VStr out)
        /\ occurs CR out = false)
  /\ fst (JSONRPCServer.get_log self
            (log_all self messages (fst (JSONRPCServer.clear_log self fs))))
     = log_all self messages (fst (JSONRPCServer.clear_log self fs)).
Proof.
  split; [apply get_log_no_cr |]. split; [apply get_log_no_cr |].
  unfold JSONRPCServer.get_log.
  destruct (read_text _ _) as [contents | e]; [reflexivity |].
  destruct (issubclass _ _); reflexivity.
Qed.

(** ** Addition *)

Lemma isinstance_int_value v :
  isinstance_int v = true -> exists x, int_value v = Some x.
Proof. destruct v as [| [|] | n | s | l | d]; try discriminate; eauto. Qed.

Lemma py_add_ints a b x y :
  int_value a = Some x -> int_value b = Some y -> py_add a b = Return (VInt (x + y)).
Proof.
  destruct a as [| [|] | n | s | l | d]; try discriminate;
    destruct b as [| [|] | m | t | r | e]; try discriminate;
    intros [= <-] [= <-]; reflexivity.
Qed.

(** X6.  [strict_add] returns exactly when both arguments are [int]
    instances (integers or booleans), and then it returns what [add]
    returns, the sum of the two integers; in every other case it raises
    [TypeError("Both parameters must be integers")].  The order of the
    arguments makes no difference. *)
Theorem strict_add_characterisation self a b :
  match JSONRPCServer.strict_add self a b with
  | Return r =>
      exists x y,
        int_value a = Some x /\ int_value b = Some y
        /\ r = VInt (x + y)
        /\ JSONRPCServer.add self a b = Return r
  | Raise e =>
      e = Exc TypeError "Both parameters must be integers"
      /\ isinstance_int a && isinstance_int b = false
  end
  /\ JSONRPCServer.strict_add self a b = JSONRPCServer.strict_add self b a.
Proof.
  unfold JSONRPCServer.strict_add, JSONRPCServer.add.
  destruct (isinstance_int a) eqn:Ha, (isinstance_int b) eqn:Hb; cbn [negb orb andb];
    try (split; [split |]; reflexivity).
  destruct (isinstance_int_value a Ha) as [x Hx], (isinstance_int_value b Hb) as [y Hy].
  rewrite (py_add_ints a b x y Hx Hy), (py_add_ints b a y x Hy Hx). split.
  - exists x, y. auto.
  - rewrite Z.add_comm. reflexivity.
Qed.

(** X7.  [add] does not check or convert its arguments.  On the values of
    the model, which are the JSON values without a number that has a
    fraction or an exponent, it returns the sum of two integers (a boolean
    counting as 0 or 1), the concatenation of two strings, so that the
    string-typed numbers "5" and "3" give "53", and the concatenation of
    two lists; for every other pair of such values it raises [TypeError].
    (A Python float is added as a number; floats are outside the model.) *)
Theorem add_characterisation self a b :
  match JSONRPCServer.add self a b with
  | Return r =>
      addable a b = true
      /\ ((exists x y, int_value a = Some x /\ int_value b = Some y /\ r = VInt (x + y))
          \/ (exists s t, a = VStr s /\ b = VStr t /\ r = VStr (s +:+ t))
          \/ (exists l m, a = VList l /\ b = VList m /\ r = VList (l ++ m)))
  | Raise e => addable a b = false /\ exc_type e = TypeError
  end.
Proof.
  unfold JSONRPCServer.add.
  destruct a as [| [|] | n | s | l | d], b as [| [|] | m | t | r | e]; cbn;
    try (split; reflexivity);
    (split; [reflexivity |]);
    try (left; eexists _, _; repeat split; reflexivity);
    try (right; left; eexists _, _; repeat split; reflexivity);
    right; right; eexists _, _; repeat split; reflexivity.
Qed.

Example add_string_numbers :
  JSONRPCServer.add (snd started) (VStr "5") (VStr "3") = Return (VStr "53").
Proof. reflexivity. Qed.

(** * The client's view of the log *)

Example display_two_entries :
  JSONRPCPlaygroundApp.display_log (concat_lines ["first"; "second"])
  = JSONRPCPlaygroundApp.Entries
      ("1. second" +:+ newline +:+ "2. first").
Proof. reflexivity. Qed.

Section ClientLog.

Import JSONRPCPlaygroundApp.

Lemma rstrip_app_drop s t : rstrip t = EmptyString -> rstrip (s +:+ t) = rstrip s.
Proof.
  intros Ht. induction s as [| c s IH]; [exact Ht |].
  rewrite append_cons. cbn [rstrip]. rewrite IH. reflexivity.
Qed.

Lemma rstrip_app_keep s t :
  rstrip t <> EmptyString -> rstrip (s +:+ t) = s +:+ rstrip t.
Proof.
  intros Ht. induction s as [| c s IH]; [reflexivity |].
  rewrite !append_cons. cbn [rstrip]. rewrite IH.
  destruct s as [| d s']; [| reflexivity].
  rewrite append_nil_l. destruct (rstrip t); [contradiction | reflexivity].
Qed.

Lemma rstrip_plain m :
  m <> EmptyString -> ends_with_space m = false -> rstrip m = m.
Proof.
  induction m as [| c r IH]; [contradiction |]. intros _ He.
  destruct r as [| d r'].
  - cbn [ends_with_space] in He. cbn [rstrip]. rewrite He. reflexivity.
  - cbn [ends_with_space] in He. cbn [rstrip]. cbn [rstrip] in IH.
    rewrite IH by (discriminate || exact He). reflexivity.
Qed.

Lemma plain_parts m :
  plain m = true ->
  exists c r,
    m = String c r /\ isspace c = false /\ ends_with_space m = false
    /\ occurs LF m = false /\ occurs CR m = false.
Proof.
  destruct m as [| c r]; [discriminate |]. unfold plain. intros H.
  apply andb_prop in H as [H Hcr]. apply andb_prop in H as [H Hlf].
  apply andb_prop in H as [Hc He].
  exists c, r. repeat split; apply negb_true_iff; assumption.
Qed.

Lemma join_newline_cons m m' rest :
  join newline (m :: m' :: rest) = m +:+ String LF (join newline (m' :: rest)).
Proof. reflexivity. Qed.

Lemma join_plain_nonempty m rest :
  plain m = true -> join newline (m :: rest) <> EmptyString.
Proof.
  intros H. destruct (plain_parts m H) as (c & r & -> & _).
  destruct rest; [discriminate |]. rewrite join_newline_cons, append_cons. discriminate.
Qed.

(** Stripping the lines of plain messages removes the last line feed and
    nothing else. *)
Lemma strip_concat_lines m ms :
  Forall (fun x => plain x = true) (m :: ms) ->
  strip (concat_lines (m :: ms)) = join newline (m :: ms).
Proof.
  intros H. unfold strip.
  assert (Hl : lstrip (concat_lines (m :: ms)) = concat_lines (m :: ms)).
  { apply Forall_cons in H as [Hm _]. destruct (plain_parts m Hm) as (c & r & -> & Hc & _).
    cbn [concat_lines]. rewrite append_cons. cbn [lstrip]. rewrite Hc. reflexivity. }
  rewrite Hl. clear Hl. revert m H. induction ms as [| m' rest IH]; intros m H.
  - apply Forall_cons in H as [Hm _]. destruct (plain_parts m Hm) as (c & r & E & _ & He & _).
    cbn [concat_lines join]. rewrite append_nil_r, rstrip_app_drop by reflexivity.
    apply rstrip_plain; [rewrite E; discriminate | exact He].
  - apply Forall_cons in H as [Hm H']. specialize (IH m' H').
    change (concat_lines (m :: m' :: rest))
      with (m +:+ (newline +:+ concat_lines (m' :: rest))).
    rewrite <- append_assoc, rstrip_app_keep.
    + rewrite IH, append_assoc. reflexivity.
    + rewrite IH. apply join_plain_nonempty. apply Forall_cons in H' as [Hm' _]. exact Hm'.
Qed.

Lemma split_pieces_line m :
  occurs LF m = false -> split_pieces m = (m, []).
Proof.
  induction m as [| c r IH]; [reflexivity |]. cbn [occurs]. intros H.
  apply orb_false_elim in H as [Hc Hr]. cbn [split_pieces].
  rewrite (IH Hr), Ascii.eqb_sym, Hc. reflexivity.
Qed.

Lemma split_pieces_app m rest :
  occurs LF m = false ->
  split_pieces (m +:+ String LF rest) = (m, split rest).
Proof.
  induction m as [| c r IH]; intros H.
  - rewrite append_nil_l. cbn [split_pieces]. unfold split.
    destruct (split_pieces rest) as [piece pieces].
    rewrite (proj2 (Ascii.eqb_eq LF LF) eq_refl). reflexivity.
  - cbn [occurs] in H. apply orb_false_elim in H as [Hc Hr].
    rewrite append_cons. cbn [split_pieces]. rewrite (IH Hr), Ascii.eqb_sym, Hc.
    reflexivity.
Qed.

Lemma split_join ms :
  ms <> [] ->
  Forall (fun x => occurs LF x = false) ms ->
  split (join newline ms) = ms.
Proof.
  intros Hne H. induction H as [| m rest Hm Hrest IH]; [contradiction |].
  destruct rest as [| m' rest'].
  - unfold split. cbn [join]. rewrite (split_pieces_line m Hm). reflexivity.
  - rewrite join_newline_cons. unfold split at 1.
    rewrite (split_pieces_app m _ Hm), IH by discriminate. reflexivity.
Qed.

Lemma log_lines_concat_lines ms :
  Forall (fun x => plain x = true) ms -> log_lines (concat_lines ms) = ms.
Proof.
  intros H. destruct ms as [| m rest]; [reflexivity |].
  unfold log_lines. rewrite (strip_concat_lines m rest H), split_join.
  - induction H as [| x xs Hx _ IH]; [reflexivity |].
    cbn [List.filter]. destruct (plain_parts x Hx) as (c & r & -> & _).
    cbn [nonempty]. rewrite IH. reflexivity.
  - discriminate.
  - eapply Forall_impl; [exact H |]. intros x Hx.
    destruct (plain_parts x Hx) as (c & r & _ & _ & _ & Hlf & _). exact Hlf.
Qed.

Lemma plain_no_cr ms :
  Forall (fun x => plain x = true) ms -> Forall (fun m => occurs CR m = false) ms.
Proof.
  intros H. eapply Forall_impl; [exact H |]. intros x Hx.
  destruct (plain_parts x Hx) as (c & r & _ & _ & _ & _ & Hcr). exact Hcr.
Qed.

(** X8.  What the server logs is what the client lists: after [clear_log],
    plain messages (not empty, on one line, without white space at either
    end, of characters that the UTF-8 log file can hold) that are logged in
    turn come back from [get_log] as a text whose
    [log_lines] are these messages in the order of the calls, and the page
    shows them numbered from the newest to the oldest. *)
Theorem client_lists_logged_messages self fs ms :
  Forall (fun m => plain m = true) ms ->
  ms <> [] ->
  exists log_content,
    snd (JSONRPCServer.get_log self
           (log_all self (map VStr ms) (fst (JSONRPCServer.clear_log self fs))))
    = Return (VStr log_content)
    /\ log_lines log_content = ms
    /\ display_log log_content = Entries (join newline (numbered 0 (rev ms))).
Proof.
  intros Hms Hne. exists (concat_lines ms).
  assert (Hget : snd (JSONRPCServer.get_log self
                   (log_all self (map VStr ms) (fst (JSONRPCServer.clear_log self fs))))
                 = Return (VStr (concat_lines ms))).
  { pose proof (log_all_contents self ms (fst (JSONRPCServer.clear_log self fs))) as [Hc Hs].
    destruct (Hs Hne) as [contents E].
    unfold log_contents in Hc. rewrite clear_log_leaves_empty_file, E in Hc.
    cbn [default from_option id] in Hc. rewrite append_nil_l in Hc. subst contents.
    unfold JSONRPCServer.get_log, read_text.
    rewrite E, (universal_newlines_id _ (concat_lines_no_cr ms (plain_no_cr ms Hms))).
    reflexivity. }
  split; [exact Hget |]. pose proof (log_lines_concat_lines ms Hms) as Hl.
  split; [exact Hl |]. unfold display_log. rewrite Hl.
  destruct ms; [contradiction | reflexivity].
Qed.

Lemma split_pieces_no_lf s :
  occurs LF (fst (split_pieces s)) = false
  /\ Forall (fun piece => occurs LF piece = false) (snd (split_pieces s)).
Proof.
  induction s as [| c r [IH1 IH2]]; [split; [reflexivity | constructor] |].
  cbn [split_pieces]. destruct (split_pieces r) as [piece pieces]. cbn [fst snd] in *.
  destruct (Ascii.eqb c LF) eqn:Ec; cbn [fst snd].
  - split; [reflexivity | constructor; assumption].
  - split; [| assumption]. cbn [occurs]. rewrite Ascii.eqb_sym, Ec, IH1. reflexivity.
Qed.

(** X9.  Whatever text the client is given as the log, none of the lines
    it lists is empty and none holds a line feed. *)
Theorem log_lines_are_proper_lines log_content :
  Forall (fun line => nonempty line = true /\ occurs LF line = false)
    (log_lines log_content).
Proof.
  unfold log_lines, split. pose proof (split_pieces_no_lf (strip log_content)) as [H1 H2].
  destruct (split_pieces (strip log_content)) as [piece pieces]. cbn [fst snd] in *.
  assert (H : Forall (fun p => occurs LF p = false) (piece :: pieces)) by (constructor; assumption).
  clear H1 H2. induction H as [| x xs Hx _ IH]; [constructor |].
  cbn [List.filter]. destruct (nonempty x) eqn:E; [constructor; auto | exact IH].
Qed.

Lemma lstrip_blank s : lstrip s = EmptyString <-> blank s = true.
Proof.
  induction s as [| c r IH]; [split; reflexivity |].
  cbn [lstrip blank]. destruct (isspace c); [exact IH | split; discriminate].
Qed.

Lemma lstrip_starts s c r : lstrip s = String c r -> isspace c = false.
Proof.
  induction s as [| d s IH]; [discriminate |]. cbn [lstrip].
  destruct (isspace d) eqn:E; [exact IH |]. intros [= <- _]. exact E.
Qed.

Lemma rstrip_starts c r : isspace c = false -> exists r', rstrip (String c r) = String c r'.
Proof.
  intros Hc. cbn [rstrip]. destruct (rstrip r); [rewrite Hc |]; eauto.
Qed.

Lemma isspace_LF : isspace LF = true.
Proof. reflexivity. Qed.

(** X10.  The page shows the note that the log is empty exactly when the
    text it is given holds nothing but white space; any other text is
    shown as entries. *)
Theorem empty_note_iff_blank log_content :
  match display_log log_content with
  | EmptyNote => blank log_content = true
  | Entries _ => blank log_content = false
  end.
Proof.
  unfold display_log, log_lines, strip. destruct (lstrip log_content) as [| c r] eqn:El.
  - apply lstrip_blank in El. cbn. exact El.
  - assert (Hb : blank log_content = false).
    { destruct (blank log_content) eqn:Eb; [| reflexivity].
      apply lstrip_blank in Eb. congruence. }
    pose proof (lstrip_starts _ _ _ El) as Hc.
    destruct (rstrip_starts c r Hc) as [r' ->]. unfold split. cbn [split_pieces].
    destruct (split_pieces r') as [piece pieces].
    destruct (Ascii.eqb c LF) eqn:Ec.
    + apply Ascii.eqb_eq in Ec. subst c. rewrite isspace_LF in Hc. discriminate.
    + cbn [List.filter nonempty]. exact Hb.
Qed.

(** X11.  A log that was cleared and a log file that does not exist look
    different on the page: after [clear_log] the page shows the note that
    the log is empty, while for a missing file the sentinel of [get_log] is
    listed as the first log entry. *)
Theorem sentinel_is_listed_as_an_entry self fs :
  fs !! log_file self = None ->
  view_of (snd (JSONRPCServer.get_log self fs)) = Some (Entries "1. Log is empty.")
  /\ view_of (snd (JSONRPCServer.get_log self (fst (JSONRPCServer.clear_log self fs))))
     = Some EmptyNote.
Proof.
  intros H. split.
  - unfold JSONRPCServer.get_log, read_text. rewrite H. reflexivity.
  - unfold JSONRPCServer.get_log, read_text. rewrite clear_log_leaves_empty_file.
    reflexivity.
Qed.

End ClientLog.

Lemma client_lists_logged_messages_witness :
  exists log_content,
    snd (JSONRPCServer.get_log (snd started)
           (log_all (snd started) (map VStr ["first"; "second one"])
              (fst (JSONRPCServer.clear_log (snd started) ∅))))
    = Return (VStr log_content)
    /\ JSONRPCPlaygroundApp.log_lines log_content = ["first"; "second one"]
    /\ JSONRPCPlaygroundApp.display_log log_content
       = JSONRPCPlaygroundApp.Entries
           (join newline (JSONRPCPlaygroundApp.numbered 0 (rev ["first"; "second one"]))).
Proof.
  apply (client_lists_logged_messages (snd started) ∅ ["first"; "second one"]).
  - repeat constructor.
  - discriminate.
Defined.

Lemma sentinel_is_listed_as_an_entry_witness :
  view_of (snd (JSONRPCServer.get_log (snd started) ∅))
  = Some (JSONRPCPlaygroundApp.Entries "1. Log is empty.")
  /\ view_of (snd (JSONRPCServer.get_log (snd started)
                     (fst (JSONRPCServer.clear_log (snd started) ∅))))
     = Some JSONRPCPlaygroundApp.EmptyNote.
Proof. apply (sentinel_is_listed_as_an_entry (snd started) ∅). reflexivity. Defined.

(** * The launcher *)

Section Launcher.

Import PlaygroundLauncher.

Lemma posts_call e o : posts (call e o) = (posts o + if is_post e then 1 else 0)%nat.
Proof.
  unfold posts, call. cbn [calls]. rewrite List.filter_app, length_app. cbn [List.filter].
  destruct (is_post e); reflexivity.
Qed.

Lemma sleeps_call e o : sleeps (call e o) = (sleeps o + if is_sleep e then 1 else 0)%nat.
Proof.
  unfold sleeps, call. cbn [calls]. rewrite List.filter_app, length_app. cbn [List.filter].
  destruct (is_sleep e); reflexivity.
Qed.

(** The loop from request [i] on, with [n] iterations left. *)
Lemma wait_loop_requests env port n i o :
  exists k,
    (k <= n)%nat
    /\ posts (snd (wait_loop env port n i o)) = (posts o + k)%nat
    /\ sleeps (snd (wait_loop env port n i o))
       = (sleeps o + length (List.filter (fun j => is_failed (probes env port j)) (seq i k)))%nat
    /\ server_running (snd (wait_loop env port n i o)) = server_running o
    /\ client_running (snd (wait_loop env port n i o)) = client_running o
    /\ match fst (wait_loop env port n i o) with
       | Some true =>
           exists k', k = S k' /\ probes env port (i + k') = Answered 200
                      /\ forallb (fun j => keeps_waiting (probes env port j)) (seq i k') = true
       | None =>
           exists k', k = S k' /\ probes env port (i + k') = Interrupted
                      /\ forallb (fun j => keeps_waiting (probes env port j)) (seq i k') = true
       | Some false =>
           k = n /\ forallb (fun j => keeps_waiting (probes env port j)) (seq i n) = true
       end.
Proof.
  revert i o. induction n as [| n IH]; intros i o.
  - exists 0%nat. cbn. rewrite !Nat.add_0_r. repeat split; lia.
  - cbn [wait_loop]. destruct (probes env port i) as [code | |] eqn:Ep.
    + destruct (code =? 200) eqn:Ec.
      * exists 1%nat. cbn [fst snd seq List.filter]. rewrite Ep. cbn [is_failed length].
        rewrite posts_call, sleeps_call. cbn [is_post is_sleep call server_running client_running].
        rewrite !Nat.add_0_r.
        split; [lia |]. split; [reflexivity |]. split; [reflexivity |].
        split; [reflexivity |]. split; [reflexivity |].
        exists 0%nat. rewrite Nat.add_0_r. apply Z.eqb_eq in Ec. subst code.
        split; [reflexivity |]. split; [exact Ep | reflexivity].
      * destruct (IH (S i) (call (Post port i) o)) as (k & Hk & Hp & Hs & Hsr & Hcr & Hres).
        exists (S k). rewrite Hp, Hs, Hsr, Hcr, posts_call, sleeps_call.
        cbn [seq List.filter is_post is_sleep call server_running client_running].
        rewrite Ep. cbn [is_failed].
        split; [lia |]. split; [lia |]. split; [lia |].
        split; [reflexivity |]. split; [reflexivity |].
        destruct (fst (wait_loop env port n (S i) (call (Post port i) o))) as [[|] |].
        -- destruct Hres as (k' & -> & Hk' & Hall). exists (S k').
           rewrite <- Nat.add_succ_comm. cbn [seq forallb]. rewrite Ep. cbn [keeps_waiting].
           rewrite Ec. auto.
        -- destruct Hres as [-> Hall]. split; [reflexivity |].
           cbn [seq forallb]. rewrite Ep. cbn [keeps_waiting]. rewrite Ec. exact Hall.
        -- destruct Hres as (k' & -> & Hk' & Hall). exists (S k').
           rewrite <- Nat.add_succ_comm. cbn [seq forallb]. rewrite Ep. cbn [keeps_waiting].
           rewrite Ec. auto.
    + destruct (IH (S i) (call Sleep (call (Post port i) o))) as (k & Hk & Hp & Hs & Hsr & Hcr & Hres).
      exists (S k). rewrite Hp, Hs, Hsr, Hcr, !posts_call, !sleeps_call.
      cbn [seq List.filter is_post is_sleep call server_running client_running].
      rewrite Ep. cbn [is_failed length].
      split; [lia |]. split; [lia |]. split; [lia |].
      split; [reflexivity |]. split; [reflexivity |].
      destruct (fst (wait_loop env port n (S i) (call Sleep (call (Post port i) o)))) as [[|] |].
      * destruct Hres as (k' & -> & Hk' & Hall). exists (S k').
        rewrite <- Nat.add_succ_comm. cbn [seq forallb]. rewrite Ep. auto.
      * destruct Hres as [-> Hall]. split; [reflexivity |].
        cbn [seq forallb]. rewrite Ep. exact Hall.
      * destruct Hres as (k' & -> & Hk' & Hall). exists (S k').
        rewrite <- Nat.add_succ_comm. cbn [seq forallb]. rewrite Ep. auto.
    + exists 1%nat. cbn [fst snd seq List.filter]. rewrite Ep. cbn [is_failed length].
      rewrite posts_call, sleeps_call. cbn [is_post is_sleep call server_running client_running].
      rewrite !Nat.add_0_r.
      split; [lia |]. split; [reflexivity |]. split; [reflexivity |].
      split; [reflexivity |]. split; [reflexivity |].
      exists 0%nat. rewrite Nat.add_0_r. auto.
Qed.

(** X12.  [_wait_for_server] makes at most [5 * timeout] requests (none
    for a timeout of zero or less) and stops at the first one that is
    answered with status 200, which is the only way it returns [True]; it
    returns [False] when none of its requests was answered with 200.  It
    sleeps once for each request that raised an exception: a response with
    another status is followed by the next request at once.  It starts and
    stops no process. *)
Theorem wait_for_server_requests self timeout env o :
  exists k,
    (k <= Z.to_nat (timeout * 5))%nat
    /\ posts (snd (_wait_for_server self timeout env o)) = (posts o + k)%nat
    /\ sleeps (snd (_wait_for_server self timeout env o))
       = (sleeps o + length (List.filter (fun j => is_failed (probes env (server_port self) j)) (seq 0 k)))%nat
    /\ server_running (snd (_wait_for_server self timeout env o)) = server_running o
    /\ client_running (snd (_wait_for_server self timeout env o)) = client_running o
    /\ match fst (_wait_for_server self timeout env o) with
       | Some true =>
           exists k', k = S k' /\ probes env (server_port self) k' = Answered 200
                      /\ forallb (fun j => keeps_waiting (probes env (server_port self) j)) (seq 0 k') = true
       | None =>
           exists k', k = S k' /\ probes env (server_port self) k' = Interrupted
                      /\ forallb (fun j => keeps_waiting (probes env (server_port self) j)) (seq 0 k') = true
       | Some false =>
           k = Z.to_nat (timeout * 5)
           /\ forallb (fun j => keeps_waiting (probes env (server_port self) j)) (seq 0 k) = true
       end.
Proof.
  unfold _wait_for_server.
  destruct (wait_loop_requests env (server_port self) (Z.to_nat (timeout * 5)) 0 o)
    as (k & Hk & Hp & Hs & Hsr & Hcr & Hres).
  exists k. repeat split; try assumption.
  destruct (fst (wait_loop env (server_port self) (Z.to_nat (timeout * 5)) 0 o)) as [[|] |].
  - exact Hres.
  - destruct Hres as [-> Hall]. auto.
  - exact Hres.
Qed.

End Launcher.

Section LauncherProcesses.

Import PlaygroundLauncher.

Lemma running_call r e o : running r (call e o) = running r o.
Proof. destruct r; reflexivity. Qed.

Lemma running_set_running r s b o :
  running r (set_running s b o) = if role_eqb s r then b else running r o.
Proof. destruct r, s; reflexivity. Qed.

Lemma calls_set_running r b o : calls (set_running r b o) = calls o.
Proof. destruct r; reflexivity. Qed.

Lemma running_stop_process s r env o :
  running r (stop_process s env o) = running r o && negb (role_eqb s r).
Proof.
  unfold stop_process.
  destruct (running s (call (Terminate s) o) && ignores_terminate env s);
    rewrite running_set_running, ?running_call;
    destruct (role_eqb s r), (running r o); reflexivity.
Qed.

Lemma killed_stop_process s r env o :
  killed r (stop_process s env o)
  = killed r o || (role_eqb s r && running s o && ignores_terminate env s).
Proof.
  unfold stop_process, killed. rewrite running_call.
  destruct (running s o), (ignores_terminate env s); cbn [andb];
    rewrite calls_set_running; cbn [call calls];
    rewrite ?existsb_app; cbn [existsb];
    destruct (role_eqb s r), (existsb _ (calls o)); reflexivity.
Qed.

(** X13.  [_cleanup] leaves no process that the launcher holds running
    and touches no other; it calls [kill()] on a process exactly when the
    launcher holds it, it was running and it did not exit within the two
    seconds after [terminate()].  A second [_cleanup] changes nothing in
    this and kills nothing. *)
Theorem cleanup_stops_held_processes self env o r :
  running r (_cleanup self env o) = running r o && negb (holds self r)
  /\ killed r (_cleanup self env o)
     = killed r o || (holds self r && running r o && ignores_terminate env r)
  /\ running r (_cleanup self env (_cleanup self env o)) = running r (_cleanup self env o)
  /\ killed r (_cleanup self env (_cleanup self env o)) = killed r (_cleanup self env o).
Proof.
  assert (H : forall o',
    running r (_cleanup self env o') = running r o' && negb (holds self r)
    /\ killed r (_cleanup self env o')
       = killed r o' || (holds self r && running r o' && ignores_terminate env r)).
  { intros o'. unfold _cleanup, holds.
    destruct (server_proc self) as [s |], (client_proc self) as [c |];
      rewrite ?running_stop_process, ?killed_stop_process, ?running_stop_process;
      cbn [orb negb]; rewrite ?andb_true_r, ?orb_false_r; try (split; reflexivity).
    - destruct s, c, r; cbn [role_eqb negb andb orb];
        rewrite ?andb_true_r, ?andb_false_r, ?orb_false_r; split; try reflexivity;
        destruct (running _ o'), (ignores_terminate env _), (killed _ o'); reflexivity.
    - destruct s, r; cbn [role_eqb negb andb orb]; split; reflexivity.
    - destruct c, r; cbn [role_eqb negb andb orb]; split; reflexivity. }
  destruct (H o) as [Hr Hk]. destruct (H (_cleanup self env o)) as [Hr2 Hk2].
  split; [exact Hr |]. split; [exact Hk |].
  rewrite Hr2, Hk2, Hr.
  destruct (holds self r), (running r o), (killed r (_cleanup self env o));
    split; reflexivity.
Qed.

Lemma wait_loop_result env port n : forall i o o',
  fst (wait_loop env port n i o) = fst (wait_loop env port n i o').
Proof.
  induction n as [| n IH]; intros i o o'; [reflexivity |].
  cbn [wait_loop]. destruct (probes env port i) as [code | |]; [destruct (code =? 200) | |];
    try reflexivity; apply IH.
Qed.

(** The loop calls nothing but [requests.post] and [time.sleep]. *)
Lemma wait_loop_calls env port n : forall i o,
  exists evs,
    calls (snd (wait_loop env port n i o)) = calls o ++ evs
    /\ forallb (fun e => is_post e || is_sleep e) evs = true.
Proof.
  induction n as [| n IH]; intros i o.
  - exists []. split; [symmetry; apply app_nil_r | reflexivity].
  - cbn [wait_loop]. destruct (probes env port i) as [code | |]; [destruct (code =? 200) | |].
    + exists [Post port i]. split; reflexivity.
    + destruct (IH (S i) (call (Post port i) o)) as (evs & E & Hall).
      exists (Post port i :: evs). split; [| exact Hall].
      rewrite E. cbn [call calls]. rewrite <- app_assoc. reflexivity.
    + destruct (IH (S i) (call Sleep (call (Post port i) o))) as (evs & E & Hall).
      exists (Post port i :: Sleep :: evs). split; [| exact Hall].
      rewrite E. cbn [call calls]. rewrite <- !app_assoc. reflexivity.
    + exists [Post port i]. split; reflexivity.
Qed.

Lemma wait_loop_other_calls env port n i o (f : event -> bool) :
  (forall p j, f (Post p j) = false) -> f Sleep = false ->
  List.filter f (calls (snd (wait_loop env port n i o))) = List.filter f (calls o)
  /\ existsb f (calls (snd (wait_loop env port n i o))) = existsb f (calls o).
Proof.
  intros Hp Hs. destruct (wait_loop_calls env port n i o) as (evs & -> & Hall).
  rewrite List.filter_app, existsb_app.
  assert (H : List.filter f evs = [] /\ existsb f evs = false).
  { induction evs as [| e evs IH]; [split; reflexivity |].
    cbn [forallb] in Hall. apply andb_true_iff in Hall as [He Hall].
    destruct (IH Hall) as [IH1 IH2]. cbn [List.filter existsb].
    destruct e; try discriminate He; rewrite ?Hp, ?Hs, IH1, IH2; split; reflexivity. }
  destruct H as [-> ->]. rewrite app_nil_r, orb_false_r. split; reflexivity.
Qed.

End LauncherProcesses.

Section LauncherStart.

Import PlaygroundLauncher.

Lemma wait_for_server_frame self timeout env o :
  server_running (snd (_wait_for_server self timeout env o)) = server_running o
  /\ client_running (snd (_wait_for_server self timeout env o)) = client_running o
  /\ (posts (snd (_wait_for_server self timeout env o)) <= posts o + Z.to_nat (timeout * 5))%nat
  /\ forall f : event -> bool,
       (forall p j, f (Post p j) = false) -> f Sleep = false ->
       List.filter f (calls (snd (_wait_for_server self timeout env o)))
       = List.filter f (calls o)
       /\ existsb f (calls (snd (_wait_for_server self timeout env o)))
          = existsb f (calls o).
Proof.
  unfold _wait_for_server.
  destruct (wait_loop_requests env (server_port self) (Z.to_nat (timeout * 5)) 0 o)
    as (k & Hk & Hp & _ & Hsr & Hcr & _).
  split; [exact Hsr |]. split; [exact Hcr |]. split; [lia |].
  intros f Hf1 Hf2. apply wait_loop_other_calls; assumption.
Qed.

Lemma wait_for_server_result self self' timeout env o o' :
  server_port self = server_port self' ->
  fst (_wait_for_server self timeout env o) = fst (_wait_for_server self' timeout env o').
Proof. intros E. unfold _wait_for_server. rewrite E. apply wait_loop_result. Qed.

(** X14.  [start], called when no child process runs: no child process
    runs when it returns, on every path.  The client is launched exactly
    when a readiness request was answered with status 200; [False] is
    returned exactly when the wait for the server ran out, and on that path
    [_cleanup] runs twice, so a server process that was started has
    [terminate()] called on it twice, and once on the other paths.  At
    most 100 readiness requests are made. *)
Theorem start_leaves_no_process_running server_port client_port env :
  server_running (snd (fst (start (__init__ server_port client_port) env quiet))) = false
  /\ client_running (snd (fst (start (__init__ server_port client_port) env quiet))) = false
  /\ snd (start (__init__ server_port client_port) env quiet)
     = match fst (_wait_for_server (__init__ server_port client_port) 20 env quiet) with
       | Some false => ReturnedFalse
       | _ => ReturnedNone
       end
  /\ launched StreamlitClient (snd (fst (start (__init__ server_port client_port) env quiet)))
     = match fst (_wait_for_server (__init__ server_port client_port) 20 env quiet) with
       | Some true => true
       | _ => false
       end
  /\ terminations ServerScript (snd (fst (start (__init__ server_port client_port) env quiet)))
     = (if popen_works env ServerScript
        then match fst (_wait_for_server (__init__ server_port client_port) 20 env quiet) with
             | Some false => 2
             | _ => 1
             end
        else 0)%nat
  /\ (posts (snd (fst (start (__init__ server_port client_port) env quiet))) <= 100)%nat.
Proof.
  set (self := __init__ server_port client_port).
  unfold start, _start_server, popen.
  destruct (popen_works env ServerScript); cbv beta iota zeta;
    match goal with
    | |- context [_wait_for_server ?self1 20 env ?o1] =>
        rewrite (wait_for_server_result self self1 20 env quiet o1 eq_refl);
        destruct (wait_for_server_frame self1 20 env o1) as (Hsr & Hcr & Hposts & Hother);
        destruct (Hother (fun e => match e with
                                   | Terminate s => role_eqb s ServerScript
                                   | _ => false
                                   end)) as [Hterm _]; [reflexivity | reflexivity |];
        destruct (Hother (fun e => match e with
                                   | Popen s _ _ => role_eqb s StreamlitClient
                                   | _ => false
                                   end)) as [_ Hlaunch]; [reflexivity | reflexivity |];
        clear Hother;
        destruct (_wait_for_server self1 20 env o1) as [ready o2]
    end;
    destruct o2 as [sr cr cs]; subst self;
    unfold posts, launched, terminations, _cleanup, _start_client, popen,
      wait_for_client, stop_process, __init__, quiet in *;
    change (Z.to_nat (20 * 5)) with (Z.to_nat 100) in Hposts;
    change (Z.to_nat 100) with 100%nat in Hposts;
    cbn [fst snd server_running client_running calls call set_running running app
         List.filter existsb role_eqb length is_post] in Hsr, Hcr, Hposts, Hterm, Hlaunch;
    subst sr cr;
    destruct ready as [[|] |];
    cbn [fst snd server_proc client_proc];
    repeat match goal with
           | |- context [popen_works env ?r] => destruct (popen_works env r)
           | |- context [client_exits env] => destruct (client_exits env)
           | |- context [ignores_terminate env ?r] => destruct (ignores_terminate env r)
           | _ => progress cbn [fst snd server_proc client_proc server_running client_running
                                calls call set_running running andb]
           end;
    rewrite ?List.filter_app, ?existsb_app, ?length_app, ?Hterm, ?Hlaunch;
    cbn [List.filter existsb role_eqb length is_post app orb];
    rewrite ?Nat.add_0_r;
    (split; [reflexivity |]); (split; [reflexivity |]); (split; [reflexivity |]);
    (split; [reflexivity |]); (split; [reflexivity |]); lia.
Qed.

Lemma do_POST_status req w :
  exists r, snd (RequestHandler.do_POST req w) = Return r /\ status r = 200.
Proof.
  unfold RequestHandler.do_POST.
  destruct (RequestHandler.do_POST_try req w) as [w1 [r | e]] eqn:E.
  - exists r. split; [reflexivity |].
    unfold RequestHandler.do_POST_try in E.
    destruct (content_length req) as [n | e]; [| discriminate E].
    destruct (read_decode req n) as [t | e]; [| discriminate E].
    destruct (JSONRPCResponseManager.handle t w) as [w2 response].
    injection E as _ <-. reflexivity.
  - rewrite (caught_by_Exception e).
    destruct (caught_by e [ValueError; KeyError; UnicodeDecodeError]);
      eexists; split; reflexivity.
Qed.

(** X15.  The launcher and the server together: [do_POST] answers every
    request with status 200, so when the first readiness request reaches
    the request handler, [_wait_for_server] returns [True] after that one
    request, without sleeping, whatever the handler made of the request
    (a result, an error envelope, or a body it could not read). *)
Theorem wait_for_server_accepts_any_answer self timeout env o req w :
  0 < timeout ->
  probes env (server_port self) 0 = attempt_of (snd (RequestHandler.do_POST req w)) ->
  _wait_for_server self timeout env o = (Some true, call (Post (server_port self) 0) o).
Proof.
  intros Ht Hp. unfold _wait_for_server.
  destruct (Z.to_nat (timeout * 5)) as [| n] eqn:En; [exfalso; lia |].
  cbn [wait_loop]. rewrite Hp.
  destruct (do_POST_status req w) as (r & -> & Hs). cbn [attempt_of]. rewrite Hs.
  reflexivity.
Qed.

Lemma wait_for_server_accepts_any_answer_witness :
  _wait_for_server (__init__ 4000 8501) 20
    (Environment (fun _ => true)
       (fun _ _ => attempt_of (snd (RequestHandler.do_POST
                                    (post_json 62 (request "add" (VDict [("a", VInt 1); ("b", VInt 1)])
                                                     (VStr "test")))
                                    (fst started))))
       true (fun _ => false))
    quiet
  = (Some true, call (Post 4000 0) quiet).
Proof.
  apply (wait_for_server_accepts_any_answer (__init__ 4000 8501) 20 _ quiet
           (post_json 62 (request "add" (VDict [("a", VInt 1); ("b", VInt 1)]) (VStr "test")))
           (fst started)).
  - reflexivity.
  - reflexivity.
Defined.

(** A server that never answers: one hundred requests, each followed by a
    sleep, then [False]; the server process is terminated twice. *)
Example start_without_an_answer :
  let env := Environment (fun _ => true) (fun _ _ => Failed) true (fun _ => false) in
  snd (start (__init__ 4000 8501) env quiet) = ReturnedFalse
  /\ posts (snd (fst (start (__init__ 4000 8501) env quiet))) = 100%nat
  /\ sleeps (snd (fst (start (__init__ 4000 8501) env quiet))) = 100%nat
  /\ List.filter (fun e => negb (is_post e || is_sleep e))
       (calls (snd (fst (start (__init__ 4000 8501) env quiet))))
     = [Popen ServerScript ["scripts/run_server.py"] true;
        Terminate ServerScript; WaitTimeout ServerScript false;
        Terminate ServerScript; WaitTimeout ServerScript false].
Proof. vm_compute. repeat split; reflexivity. Qed.

(** A server that answers the third request and a client that exits. *)
Example start_with_a_slow_server :
  let env := Environment (fun _ => true)
               (fun _ i => if (i <? 2)%nat then Failed else Answered 200)
               true (fun r => role_eqb r ServerScript) in
  calls (snd (fst (start (__init__ 4000 8501) env quiet)))
  = [Popen ServerScript ["scripts/run_server.py"] true;
     Post 4000 0; Sleep; Post 4000 1; Sleep; Post 4000 2;
     Popen StreamlitClient
       ["-m"; "streamlit"; "run"; "scripts/run_client.py";
        "--server.port"; "8501"; "--server.headless"; "true"] true;
     WaitForClient;
     Terminate ServerScript; WaitTimeout ServerScript true; Kill ServerScript; Wait ServerScript;
     Terminate StreamlitClient; WaitTimeout StreamlitClient false].
Proof. vm_compute. reflexivity. Qed.

End LauncherStart.

Section LauncherPorts.

Import PlaygroundLauncher.

Lemma all_failed_count env port k : forall i,
  (forall j, probes env port j = Failed) ->
  length (List.filter (fun j => is_failed (probes env port j)) (seq i k)) = k.
Proof.
  induction k as [| k IH]; intros i H; [reflexivity |].
  cbn [seq List.filter]. rewrite H. cbn [is_failed length]. rewrite (IH (S i) H). reflexivity.
Qed.

(** When every request fails, the wait runs to its end. *)
Lemma wait_for_server_all_failed self timeout env o :
  (forall j, probes env (server_port self) j = Failed) ->
  fst (_wait_for_server self timeout env o) = Some false
  /\ posts (snd (_wait_for_server self timeout env o)) = (posts o + Z.to_nat (timeout * 5))%nat
  /\ sleeps (snd (_wait_for_server self timeout env o)) = (sleeps o + Z.to_nat (timeout * 5))%nat.
Proof.
  intros Hfail. unfold _wait_for_server.
  destruct (wait_loop_requests env (server_port self) (Z.to_nat (timeout * 5)) 0 o)
    as (k & _ & Hp & Hs & _ & _ & Hres).
  rewrite (all_failed_count env (server_port self) k 0 Hfail) in Hs.
  destruct (fst (wait_loop env (server_port self) (Z.to_nat (timeout * 5)) 0 o)) as [[|] |].
  - destruct Hres as (k' & _ & Hk' & _). rewrite Hfail in Hk'. discriminate Hk'.
  - destruct Hres as [-> _]. split; [reflexivity |]. split; assumption.
  - destruct Hres as (k' & _ & Hk' & _). rewrite Hfail in Hk'. discriminate Hk'.
Qed.

(** X16.  The server port of the launcher reaches the readiness requests
    only: the command line that starts the server carries no port, and the
    server script listens on the port that [main] of [server.py] gives it.
    So when nothing answers on the other ports, a launcher with another
    server port never sees its server: [start] makes its 100 requests,
    sleeps after each of them, does not start the client, stops the server
    and returns [False]. *)
Theorem other_server_port_is_never_ready server_port client_port env :
  server_port <> port (snd started) ->
  (forall p i, p <> port (snd started) -> probes env p i = Failed) ->
  snd (start (__init__ server_port client_port) env quiet) = ReturnedFalse
  /\ hd_error (calls (snd (fst (start (__init__ server_port client_port) env quiet))))
     = Some (Popen ServerScript ["scripts/run_server.py"] (popen_works env ServerScript))
  /\ posts (snd (fst (start (__init__ server_port client_port) env quiet))) = 100%nat
  /\ sleeps (snd (fst (start (__init__ server_port client_port) env quiet))) = 100%nat
  /\ launched StreamlitClient (snd (fst (start (__init__ server_port client_port) env quiet)))
     = false
  /\ server_running (snd (fst (start (__init__ server_port client_port) env quiet))) = false.
Proof.
  intros Hport Hnet.
  assert (Hfail : forall j, probes env server_port j = Failed) by (intros j; apply Hnet, Hport).
  unfold start, _start_server, popen.
  destruct (popen_works env ServerScript); cbv beta iota zeta;
    match goal with
    | |- context [_wait_for_server ?self1 20 env ?o1] =>
        destruct (wait_for_server_all_failed self1 20 env o1 Hfail) as (Hres & Hposts & Hsleeps);
        destruct (wait_for_server_frame self1 20 env o1) as (Hsr & Hcr & _ & Hother);
        destruct (Hother (fun e => match e with
                                   | Popen s _ _ => role_eqb s StreamlitClient
                                   | _ => false
                                   end)) as [_ Hlaunch]; [reflexivity | reflexivity |];
        clear Hother;
        unfold _wait_for_server in Hres, Hposts, Hsleeps, Hsr, Hcr, Hlaunch |- *;
        destruct (wait_loop_calls env (PlaygroundLauncher.server_port self1)
                    (Z.to_nat (20 * 5)) 0 o1) as (evs & Hcalls & _);
        destruct (wait_loop env (PlaygroundLauncher.server_port self1)
                    (Z.to_nat (20 * 5)) 0 o1) as [ready o2]
    end;
    destruct o2 as [sr cr cs];
    cbn [fst snd] in Hres; subst ready;
    unfold posts, sleeps, launched, _cleanup, stop_process, __init__, quiet in *;
    change (Z.to_nat (20 * 5)) with (Z.to_nat 100) in Hposts, Hsleeps;
    change (Z.to_nat 100) with 100%nat in Hposts, Hsleeps;
    cbn [fst snd server_running client_running calls call set_running running app
         List.filter existsb role_eqb length is_post is_sleep]
      in Hsr, Hcr, Hposts, Hsleeps, Hlaunch, Hcalls;
    subst sr cr cs;
    cbn [fst snd server_proc client_proc];
    repeat match goal with
           | |- context [ignores_terminate env ?r] => destruct (ignores_terminate env r)
           | _ => progress cbn [fst snd server_proc client_proc server_running client_running
                                calls call set_running running andb]
           end;
    rewrite <- ?app_assoc;
    rewrite ?List.filter_app, ?existsb_app, ?length_app in *;
    cbn [List.filter existsb role_eqb length is_post is_sleep app orb hd_error] in *;
    rewrite ?Nat.add_0_r, ?orb_false_r in *;
    (split; [reflexivity |]); (split; [reflexivity |]); (split; [lia |]);
    (split; [lia |]); (split; [assumption || reflexivity | reflexivity]).
Qed.

Lemma other_server_port_is_never_ready_witness :
  snd (start (__init__ 5000 8501)
         (Environment (fun _ => true)
            (fun p _ => if p =? 4000 then Answered 200 else Failed) true (fun _ => false))
         quiet) = ReturnedFalse
  /\ hd_error (calls (snd (fst (start (__init__ 5000 8501)
         (Environment (fun _ => true)
            (fun p _ => if p =? 4000 then Answered 200 else Failed) true (fun _ => false))
         quiet))))
     = Some (Popen ServerScript ["scripts/run_server.py"] true)
  /\ posts (snd (fst (start (__init__ 5000 8501)
         (Environment (fun _ => true)
            (fun p _ => if p =? 4000 then Answered 200 else Failed) true (fun _ => false))
         quiet))) = 100%nat
  /\ sleeps (snd (fst (start (__init__ 5000 8501)
         (Environment (fun _ => true)
            (fun p _ => if p =? 4000 then Answered 200 else Failed) true (fun _ => false))
         quiet))) = 100%nat
  /\ launched StreamlitClient (snd (fst (start (__init__ 5000 8501)
         (Environment (fun _ => true)
            (fun p _ => if p =? 4000 then Answered 200 else Failed) true (fun _ => false))
         quiet))) = false
  /\ server_running (snd (fst (start (__init__ 5000 8501)
         (Environment (fun _ => true)
            (fun p _ => if p =? 4000 then Answered 200 else Failed) true (fun _ => false))
         quiet))) = false.
Proof.
  apply (other_server_port_is_never_ready 5000 8501
           (Environment (fun _ => true)
              (fun p _ => if p =? 4000 then Answered 200 else Failed) true (fun _ => false))).
  - discriminate.
  - intros p i Hp. cbn [probes]. destruct (Z.eqb_spec p 4000) as [-> | _]; [| reflexivity].
    exfalso. apply Hp. reflexivity.
Defined.

End LauncherPorts.

(** * The command line of the launcher *)

Lemma digit_value_pretty_N_char (d : N) :
  (d < 10)%N -> digit_value (pretty_N_char d) = Some (Z.of_N d).
Proof.
  intros Hd.
  assert (d = 0 \/ d = 1 \/ d = 2 \/ d = 3 \/ d = 4 \/ d = 5 \/ d = 6
          \/ d = 7 \/ d = 8 \/ d = 9)%N as H by lia.
  repeat (destruct H as [-> | H]; [reflexivity |]). subst d. reflexivity.
Qed.

Lemma digit_is_no_int_space c d : digit_value c = Some d -> int_space c = false.
Proof.
  unfold digit_value, int_space. cbv zeta.
  destruct (N.leb_spec 48 (N_of_ascii c)); [| discriminate].
  destruct (N.leb_spec (N_of_ascii c) 57); [| discriminate]. intros _.
  destruct (N.leb_spec 9 (N_of_ascii c)); [| lia].
  destruct (N.leb_spec (N_of_ascii c) 13); [lia |].
  destruct (N.eqb_spec (N_of_ascii c) 32); [lia |].
  destruct (N.eqb_spec (N_of_ascii c) 133); [lia |].
  destruct (N.eqb_spec (N_of_ascii c) 160); [lia | reflexivity].
Qed.

Lemma lstrip_by_starts space c s :
  space c = false -> lstrip_by space (String c s) = String c s.
Proof. intros H. cbn [lstrip_by]. rewrite H. reflexivity. Qed.

Lemma rstrip_by_none space s :
  forallb (fun c => negb (space c)) (list_ascii_of_string s) = true ->
  rstrip_by space s = s.
Proof.
  induction s as [| c s IH]; [reflexivity |].
  cbn [list_ascii_of_string forallb rstrip_by]. intros H.
  apply andb_true_iff in H as [Hc Hs]. rewrite (IH Hs).
  destruct s; [| reflexivity].
  apply negb_true_iff in Hc. rewrite Hc. reflexivity.
Qed.

(** The digits that [pretty] writes for a positive number [x] below
    [10 ^ k]: at most [k] of them, in front of [s]. *)
Lemma pretty_N_go_digits (k : nat) : forall (x : N) (s : string),
  (0 < x)%N -> (x < 10 ^ N.of_nat k)%N ->
  digits 0 false (pretty_N_go x s) = digits (Z.of_N x) true s
  /\ digit_count (pretty_N_go x s) = digit_count s + digit_count (pretty_N_go x EmptyString)
  /\ 1 <= digit_count (pretty_N_go x EmptyString) <= Z.of_nat k
  /\ (forallb (fun c => negb (int_space c)) (list_ascii_of_string s) = true ->
      forallb (fun c => negb (int_space c)) (list_ascii_of_string (pretty_N_go x s)) = true)
  /\ exists c rest d, pretty_N_go x s = String c rest /\ digit_value c = Some d.
Proof.
  induction k as [| k IH]; intros x s Hpos Hlt.
  - change (N.of_nat 0) with 0%N in Hlt. rewrite N.pow_0_r in Hlt. exfalso. lia.
  - assert (Hd : digit_value (pretty_N_char (x `mod` 10)) = Some (Z.of_N (x `mod` 10))).
    { apply digit_value_pretty_N_char. apply N.mod_lt. lia. }
    assert (Hx : Z.of_N x = Z.of_N (x `div` 10) * 10 + Z.of_N (x `mod` 10)).
    { rewrite (N.div_mod x 10) at 1 by lia. lia. }
    rewrite !(pretty_N_go_step x) by exact Hpos.
    destruct (N.eq_dec (x `div` 10)%N 0%N) as [H0 | Hq%N.neq_0_lt_0].
    + rewrite H0, !pretty_N_go_0. rewrite H0 in Hx. cbn [digits digit_count].
      rewrite Hd. cbn [list_ascii_of_string forallb].
      rewrite (digit_is_no_int_space _ _ Hd).
      split; [rewrite Hx; reflexivity |]. split; [lia |]. split; [lia |].
      split; [intros Hall; exact Hall | eauto].
    + assert (Hq10 : (x `div` 10 < 10 ^ N.of_nat k)%N).
      { apply N.Div0.div_lt_upper_bound.
        rewrite Nat2N.inj_succ, N.pow_succ_r' in Hlt. exact Hlt. }
      destruct (IH (x `div` 10)%N (String (pretty_N_char (x `mod` 10)) s) Hq Hq10)
        as (Hv & Hc & _ & Hs & Hf).
      destruct (IH (x `div` 10)%N (String (pretty_N_char (x `mod` 10)) EmptyString) Hq Hq10)
        as (_ & Hc' & Hb & _ & _).
      rewrite Hv, Hc, Hc'. cbn [digits digit_count]. rewrite Hd.
      split; [rewrite Hx; reflexivity |]. split; [lia |]. split; [lia |].
      split; [| exact Hf].
      intros Hall. apply Hs. cbn [list_ascii_of_string forallb].
      rewrite (digit_is_no_int_space _ _ Hd). exact Hall.
Qed.

Lemma py_int_digits c rest d :
  digit_value c = Some d ->
  forallb (fun c => negb (int_space c)) (list_ascii_of_string (String c rest)) = true ->
  digit_count (String c rest) <= max_str_digits ->
  py_int (String c rest) = digits 0 false (String c rest).
Proof.
  intros Hd Hall Hcount. unfold py_int.
  rewrite (lstrip_by_starts _ _ _ (digit_is_no_int_space _ _ Hd)).
  rewrite (rstrip_by_none _ _ Hall). cbv zeta.
  destruct (Z.ltb_spec max_str_digits (digit_count (String c rest))); [lia |].
  destruct c as [[] [] [] [] [] [] [] []]; try discriminate Hd; reflexivity.
Qed.

Lemma py_int_minus s :
  forallb (fun c => negb (int_space c)) (list_ascii_of_string s) = true ->
  digit_count s <= max_str_digits ->
  py_int (String "-" s) = Z.opp <$> digits 0 false s.
Proof.
  intros Hall Hcount. unfold py_int.
  rewrite lstrip_by_starts by reflexivity.
  rewrite rstrip_by_none by exact Hall. cbv zeta.
  change (digit_count (String "-" s)) with (digit_count s).
  destruct (Z.ltb_spec max_str_digits (digit_count s)); [lia | reflexivity].
Qed.

Lemma py_int_pretty_N_go (x : N) :
  (0 < x)%N -> (x < 10 ^ 4300)%N ->
  py_int (pretty_N_go x EmptyString) = Some (Z.of_N x)
  /\ py_int (String "-" (pretty_N_go x EmptyString)) = Some (- Z.of_N x).
Proof.
  intros Hpos Hlt.
  assert (E4300 : N.of_nat (Z.to_nat 4300) = 4300%N) by (vm_compute; reflexivity).
  destruct (pretty_N_go_digits (Z.to_nat 4300) x EmptyString Hpos)
    as (Hv & _ & Hb & Hs & c & rest & d & E & Hd).
  { rewrite E4300. exact Hlt. }
  specialize (Hs eq_refl).
  assert (Hcount : digit_count (pretty_N_go x EmptyString) <= max_str_digits).
  { assert (EZ : Z.of_nat (Z.to_nat 4300) = 4300) by (vm_compute; reflexivity).
    rewrite EZ in Hb. exact (proj2 Hb). }
  split.
  - rewrite E in *. rewrite (py_int_digits _ _ _ Hd Hs Hcount). exact Hv.
  - rewrite (py_int_minus _ Hs Hcount), Hv. reflexivity.
Qed.

(** [int(str(n))] is [n] for every integer that [str] writes with at most
    4300 digits. *)
Lemma py_int_pretty (n : Z) :
  - 10 ^ 4300 < n < 10 ^ 4300 -> py_int (pretty n) = Some n.
Proof.
  intros Hn. destruct n as [| p | p].
  - reflexivity.
  - change (pretty (Z.pos p)) with (pretty (N.pos p)).
    unfold pretty, pretty_N. destruct (decide (N.pos p = 0%N)) as [H | _]; [discriminate H |].
    apply (py_int_pretty_N_go (N.pos p)); [reflexivity |].
    apply N2Z.inj_lt. rewrite N2Z.inj_pow. exact (proj2 Hn).
  - change (pretty (Z.neg p)) with (String "-" (pretty (N.pos p))).
    unfold pretty, pretty_N. destruct (decide (N.pos p = 0%N)) as [H | _]; [discriminate H |].
    apply (py_int_pretty_N_go (N.pos p)); [reflexivity |].
    apply N2Z.inj_lt. rewrite N2Z.inj_pow. apply Z.opp_lt_mono. exact (proj1 Hn).
Qed.

(** X17.  The launcher takes its two ports from the command line: an
    argument that is the decimal writing of an integer [n] (at most 4300
    digits) becomes the port [n] as it is, also when [n] is negative or
    no valid port number; a missing second argument leaves the client port
    at 8501. *)
Theorem main_takes_ports_from_argv prog n m env o :
  - 10 ^ 4300 < n < 10 ^ 4300 ->
  - 10 ^ 4300 < m < 10 ^ 4300 ->
  PlaygroundLauncher.main [prog; pretty n; pretty m] env o
  = PlaygroundLauncher.start (PlaygroundLauncher.__init__ n m) env o
  /\ PlaygroundLauncher.main [prog; pretty n] env o
     = PlaygroundLauncher.start (PlaygroundLauncher.__init__ n 8501) env o.
Proof.
  intros Hn Hm. unfold PlaygroundLauncher.main, PlaygroundLauncher.port_argument.
  cbn [lookup list_lookup]. rewrite (py_int_pretty n Hn), (py_int_pretty m Hm).
  split; reflexivity.
Qed.

Lemma main_takes_ports_from_argv_witness :
  PlaygroundLauncher.main ["main.py"; "5000"; "9000"]
    (PlaygroundLauncher.Environment (fun _ => true) (fun _ _ => PlaygroundLauncher.Answered 200)
       true (fun _ => false))
    quiet
  = PlaygroundLauncher.start (PlaygroundLauncher.__init__ 5000 9000)
      (PlaygroundLauncher.Environment (fun _ => true) (fun _ _ => PlaygroundLauncher.Answered 200)
         true (fun _ => false))
      quiet
  /\ PlaygroundLauncher.main ["main.py"; "5000"]
       (PlaygroundLauncher.Environment (fun _ => true) (fun _ _ => PlaygroundLauncher.Answered 200)
          true (fun _ => false))
       quiet
     = PlaygroundLauncher.start (PlaygroundLauncher.__init__ 5000 8501)
         (PlaygroundLauncher.Environment (fun _ => true) (fun _ _ => PlaygroundLauncher.Answered 200)
            true (fun _ => false))
         quiet.
Proof.
  apply (main_takes_ports_from_argv "main.py" 5000 9000).
  - split; vm_compute; reflexivity.
  - split; vm_compute; reflexivity.
Defined.

(** Arguments that [int] rejects leave the defaults; white space around
    the digits, a sign and underscores between digits are accepted. *)
Example port_arguments :
  map (fun text => PlaygroundLauncher.port_argument ["main.py"; text] 1 4000)
      ["4001"; " 4001 "; "+4001"; "4_001"; "-1"; "0x10"; "4001.0"; "port"; EmptyString; "4__1"]
  = [4001; 4001; 4001; 4001; -1; 4000; 4000; 4000; 4000; 4000].
Proof. vm_compute. reflexivity. Qed.

(** * Requests that cannot be read *)

(** X18.  A request whose [Content-Length] header or whose body cannot be
    read (the header is missing or no number, the bytes are not UTF-8)
    reaches no method: the state of the server, its log file included, is
    what it was, and the answer is the envelope with code -32603, a null
    [id] and the text of the exception as [data]. *)
Theorem unreadable_request_runs_no_method req w e :
  content_length req = Raise e
  \/ (exists n, content_length req = Return n /\ read_decode req n = Raise e) ->
  fst (RequestHandler.do_POST req w) = w
  /\ answers req w (Dumps (RequestHandler.error_response e))
  /\ error_data (RequestHandler.error_response e) = Some (VStr (exc_msg e)).
Proof.
  intros H. unfold answers, RequestHandler.do_POST, RequestHandler.do_POST_try.
  destruct H as [-> | (n & -> & ->)];
    rewrite (caught_by_Exception e);
    destruct (caught_by e [ValueError; KeyError; UnicodeDecodeError]);
    repeat split; reflexivity.
Qed.

Lemma unreadable_request_runs_no_method_witness :
  fst (RequestHandler.do_POST
         (Request (Return 1) (fun _ => Raise (Exc UnicodeDecodeError "invalid start byte")))
         (fst started))
  = fst started
  /\ answers (Request (Return 1) (fun _ => Raise (Exc UnicodeDecodeError "invalid start byte")))
       (fst started)
       (Dumps (RequestHandler.error_response (Exc UnicodeDecodeError "invalid start byte")))
  /\ error_data (RequestHandler.error_response (Exc UnicodeDecodeError "invalid start byte"))
     = Some (VStr "invalid start byte").
Proof.
  apply (unreadable_request_runs_no_method
           (Request (Return 1) (fun _ => Raise (Exc UnicodeDecodeError "invalid start byte")))
           (fst started) (Exc UnicodeDecodeError "invalid start byte")).
  right. exists 1. split; reflexivity.
Defined.
